(** * scram-j-cli: the SCRAM-J command-line wrapper for OpenClaw

    A shallow embedding of [src/bin/scram-j-cli.py] and the properties of
    its one-line JSON protocol.

    The script parses its arguments, reads a prompt, resolves a model alias,
    builds a chat-completion request, performs one HTTP call and prints one
    JSON event.  What the embedding takes as given (the "world") is what the
    script itself takes from its libraries: the parsed arguments, the text
    on standard input, the process environment, and the outcome of the body
    of the [try] statement (lines 70-72: [urlopen], [read], [decode],
    [json.loads]), which is either the decoded JSON value or the exception
    that was raised.  Everything the script computes itself is written out:
    truth tests, [dict.get], subscripting, [str.strip], slicing, the f-strings
    and [json.dumps] with and without [ensure_ascii].

    Python strings are sequences of Unicode code points; standard output is
    a UTF-8 text stream, modelled as the text written to it, whose error
    handler (strict, or surrogateescape as in the C locale) belongs to the
    world.  Two library calls outside the [try] statement can raise and are
    modelled with it: the constructor of [Request] at line 63, for a URL
    without a type, and [print] at line 103, for a text that standard output
    cannot encode.  Outside the embedding are the exits of [argparse] itself
    on a malformed command line, a standard output that is closed or has
    another encoding, and which conditions [urllib] reports as a
    [URLError]. *)

From Stdlib Require Import ZArith NArith List String Ascii DecimalString.
From stdpp Require Import base option list gmap.
Import ListNotations.
Local Open Scope N_scope.

(** ** Strings *)

(** A Python [str]: a sequence of code points. *)
Abbreviation char := N (only parsing).
Abbreviation str := (list N) (only parsing).

(** An ASCII literal as a [str]. *)
Definition lit (s : string) : str :=
  map N_of_ascii (list_ascii_of_string s).

(** A literal that holds double quotes, each written as an apostrophe. *)
Definition qlit (s : string) : str :=
  map (fun c => if c =? 39 then 34 else c) (lit s).

(** [str.isspace] on one character, the set [str.strip()] removes. *)
Definition isspace (c : char) : bool :=
  ((9 <=? c) && (c <=? 13)) || ((28 <=? c) && (c <=? 32))
  || (c =? 133) || (c =? 160) || (c =? 5760)
  || ((8192 <=? c) && (c <=? 8202))
  || (c =? 8232) || (c =? 8233) || (c =? 8239) || (c =? 8287) || (c =? 12288).

Fixpoint lstrip (s : str) : str :=
  match s with
  | c :: s' => if isspace c then lstrip s' else s
  | [] => []
  end.

Definition rstrip (s : str) : str := rev (lstrip (rev s)).

(** [s.strip()] *)
Definition strip (s : str) : str := rstrip (lstrip s).

(** [len(s)] *)
Definition len (s : str) : Z := Z.of_nat (length s).

(** [s[:n]]; a negative [n] counts from the end. *)
Definition slice_to (n : Z) (s : str) : str :=
  if (n <? 0)%Z then firstn (Z.to_nat (len s + n)) s
  else firstn (Z.to_nat n) s.

(** ** Values *)

(** A float is never computed with by the script: it is tested for truth
    and printed.  It is carried as what those two operations see. *)
Record pyfloat := PyFloat {
  float_repr : str;     (* what [json.dumps] prints for it *)
  float_bool : bool     (* [bool(x)]: false for 0.0 and -0.0 *)
}.

(** The values [json.loads] produces and [json.dumps] consumes.  A [dict] is
    kept in insertion order, as [json.dumps] prints it. *)
#[warnings="-register-all"]
Inductive pyval :=
| PNone
| PBool (b : bool)
| PInt (z : Z)
| PFloat (f : pyfloat)
| PStr (s : str)
| PList (l : list pyval)
| PDict (d : list (str * pyval)).

(** [bool(v)] *)
Definition truthy (v : pyval) : bool :=
  match v with
  | PNone => false
  | PBool b => b
  | PInt z => negb (z =? 0)%Z
  | PFloat f => float_bool f
  | PStr s => negb (bool_decide (s = []))
  | PList l => match l with [] => false | _ => true end
  | PDict d => match d with [] => false | _ => true end
  end.

(** [a or b] *)
Definition py_or (a b : pyval) : pyval := if truthy a then a else b.

(** An optional command-line string: [None] or a [str]. *)
Definition of_opt (o : option str) : pyval :=
  match o with
  | None => PNone
  | Some s => PStr s
  end.

Definition type_name (v : pyval) : str :=
  match v with
  | PNone => lit "NoneType"
  | PBool _ => lit "bool"
  | PInt _ => lit "int"
  | PFloat _ => lit "float"
  | PStr _ => lit "str"
  | PList _ => lit "list"
  | PDict _ => lit "dict"
  end.

(** ** Exceptions *)

(** The exception classes the script can meet: those it names in its
    [except] clauses, those its own operations raise, and those the body of
    the [try] statement is known to raise. *)
Inductive exc_class :=
| BaseException | KeyboardInterrupt | Exception
| OSError | TimeoutError | ConnectionError | ConnectionRefusedError
| URLError | HTTPError
| ValueError | UnicodeError | UnicodeDecodeError | UnicodeEncodeError
| JSONDecodeError
| LookupError | IndexError | KeyError
| AttributeError | TypeError
| HTTPException | InvalidURL.

Global Instance exc_class_eq_dec : EqDecision exc_class.
Proof. solve_decision. Defined.

(** The direct base class. *)
Definition base_class (c : exc_class) : option exc_class :=
  match c with
  | BaseException => None
  | KeyboardInterrupt => Some BaseException
  | Exception => Some BaseException
  | OSError => Some Exception
  | TimeoutError => Some OSError
  | ConnectionError => Some OSError
  | ConnectionRefusedError => Some ConnectionError
  | URLError => Some OSError
  | HTTPError => Some URLError
  | ValueError => Some Exception
  | UnicodeError => Some ValueError
  | UnicodeDecodeError => Some UnicodeError
  | UnicodeEncodeError => Some UnicodeError
  | JSONDecodeError => Some ValueError
  | LookupError => Some Exception
  | IndexError => Some LookupError
  | KeyError => Some LookupError
  | AttributeError => Some Exception
  | TypeError => Some Exception
  | HTTPException => Some Exception
  | InvalidURL => Some HTTPException
  end.

Fixpoint subclass_fuel (n : nat) (c d : exc_class) : bool :=
  bool_decide (c = d) ||
  match n with
  | O => false
  | S n' => match base_class c with
            | Some b => subclass_fuel n' b d
            | None => false
            end
  end.

(** [issubclass(c, d)]; no chain of bases is longer than four. *)
Definition issubclass (c d : exc_class) : bool := subclass_fuel 4 c d.

(** A raised exception: its class and [str(e)]. *)
Record exc := Exc { exc_type : exc_class; exc_str : str }.

Definition isinstance (e : exc) (d : exc_class) : bool :=
  issubclass (exc_type e) d.

(** ** Fallible evaluation *)

Inductive result (A : Type) :=
| Ok (a : A)
| Raise (e : exc).
Arguments Ok {A} a.
Arguments Raise {A} e.

Global Instance result_ret : MRet result := fun _ a => Ok a.
Global Instance result_bind : MBind result := fun _ _ f m =>
  match m with
  | Ok a => f a
  | Raise e => Raise e
  end.

(** ** Operations on values *)

Fixpoint assoc (k : str) (d : list (str * pyval)) : option pyval :=
  match d with
  | [] => None
  | (k', v) :: d' => if bool_decide (k' = k) then Some v else assoc k d'
  end.

(** [v.get(k, dflt)]: only a [dict] has the method. *)
Definition py_get (v : pyval) (k : str) (dflt : pyval) : result pyval :=
  match v with
  | PDict d => Ok (default dflt (assoc k d))
  | _ => Raise (Exc AttributeError
                  (lit "'" ++ type_name v ++ lit "' object has no attribute 'get'"))
  end.

(** [v[0]] *)
Definition py_item0 (v : pyval) : result pyval :=
  match v with
  | PList l =>
      match l with
      | x :: _ => Ok x
      | [] => Raise (Exc IndexError (lit "list index out of range"))
      end
  | PStr s =>
      match s with
      | c :: _ => Ok (PStr [c])
      | [] => Raise (Exc IndexError (lit "string index out of range"))
      end
  | PDict _ => Raise (Exc KeyError (lit "0"))
  | _ => Raise (Exc TypeError
                  (lit "'" ++ type_name v ++ lit "' object is not subscriptable"))
  end.

(** ** [json.dumps] *)

Definition hex_digit (n : N) : char :=
  if n <? 10 then 48 + n else 87 + n.

(** ['{0:04x}'.format(n)] for [n < 0x10000] *)
Definition hex4 (n : N) : str :=
  [hex_digit (N.shiftr n 12 mod 16); hex_digit (N.shiftr n 8 mod 16);
   hex_digit (N.shiftr n 4 mod 16); hex_digit (n mod 16)].

(** ['\\u{0:04x}'] *)
Definition u_escape (n : N) : str := lit "\u" ++ hex4 n.

(** The short escapes of [ESCAPE_DCT]. *)
Definition short_escape (c : char) : option str :=
  if c =? 92 then Some (lit "\\")
  else if c =? 34 then Some [92; 34]
  else if c =? 8 then Some (lit "\b")
  else if c =? 12 then Some (lit "\f")
  else if c =? 10 then Some (lit "\n")
  else if c =? 13 then Some (lit "\r")
  else if c =? 9 then Some (lit "\t")
  else None.

(** One character under [ensure_ascii=False] ([encode_basestring]): the
    short escapes, [\u00XX] for the other control characters, and every
    other character as it is. *)
Definition escape_char (c : char) : str :=
  match short_escape c with
  | Some e => e
  | None => if c <? 32 then u_escape c else [c]
  end.

(** One character under [ensure_ascii=True] ([encode_basestring_ascii]):
    everything outside [' '..'~'] is escaped, above the basic plane as a
    surrogate pair. *)
Definition escape_char_ascii (c : char) : str :=
  match short_escape c with
  | Some e => e
  | None =>
      if (32 <=? c) && (c <=? 126) then [c]
      else if c <? 65536 then u_escape c
      else
        let n := c - 65536 in
        u_escape (N.lor 55296 (N.land (N.shiftr n 10) 1023))
        ++ u_escape (N.lor 56320 (N.land n 1023))
  end.

Definition encode_str (ensure_ascii : bool) (s : str) : str :=
  [34] ++ concat (map (if ensure_ascii then escape_char_ascii else escape_char) s)
       ++ [34].

(** [int.__repr__] *)
Definition repr_int (z : Z) : str :=
  lit (NilZero.string_of_int (Z.to_int z)).

(** [", ".join(parts)] *)
Fixpoint join_comma (parts : list str) : str :=
  match parts with
  | [] => []
  | [p] => p
  | p :: ps => p ++ lit ", " ++ join_comma ps
  end.

(** [json.dumps(v, ensure_ascii=...)] with the default separators. *)
Fixpoint dumps (ensure_ascii : bool) (v : pyval) : str :=
  match v with
  | PNone => lit "null"
  | PBool true => lit "true"
  | PBool false => lit "false"
  | PInt z => repr_int z
  | PFloat f => float_repr f
  | PStr s => encode_str ensure_ascii s
  | PList l =>
      lit "[" ++ join_comma (map (dumps ensure_ascii) l) ++ lit "]"
  | PDict d =>
      lit "{" ++
      join_comma
        ((fix items (d : list (str * pyval)) : list str :=
            match d with
            | [] => []
            | (k, x) :: d' =>
                (encode_str ensure_ascii k ++ lit ": " ++ dumps ensure_ascii x)
                :: items d'
            end) d)
      ++ lit "}"
  end.

(** ** Standard output *)

(** The error handler of [sys.stdout]: [strict] in a UTF-8 locale,
    [surrogateescape] in the C locale. *)
Inductive error_handler := strict | surrogateescape.

Definition is_surrogate (c : char) : bool := (55296 <=? c) && (c <=? 57343).

(** A character the UTF-8 stream refuses: a surrogate, unless the handler
    is [surrogateescape] and the surrogate stands for a byte (U+DC80 to
    U+DCFF). *)
Definition refused (h : error_handler) (c : char) : bool :=
  is_surrogate c &&
  match h with
  | strict => true
  | surrogateescape => negb ((56448 <=? c) && (c <=? 56575))
  end.

(** A text the stream can encode. *)
Definition encodable (h : error_handler) (s : str) : bool :=
  forallb (fun c => negb (refused h c)) s.

(** The surrogates a text starts with. *)
Fixpoint surrogate_run (s : str) : nat :=
  match s with
  | c :: s' => if is_surrogate c then S (surrogate_run s') else O
  | [] => O
  end.

(** [str(e)] of the UnicodeEncodeError for the surrogates from position
    [i] on, [c] the first of them and [n] their number. *)
Definition encode_error (i : nat) (c : char) (n : nat) : exc :=
  Exc UnicodeEncodeError
    (match n with
     | 1%nat =>
         lit "'utf-8' codec can't encode character '" ++ u_escape c
         ++ lit "' in position " ++ repr_int (Z.of_nat i)
     | _ =>
         lit "'utf-8' codec can't encode characters in position "
         ++ repr_int (Z.of_nat i) ++ lit "-" ++ repr_int (Z.of_nat (i + n - 1))
     end ++ lit ": surrogates not allowed").

(** The first refused character of a text, counted from [i]. *)
Fixpoint first_refused (h : error_handler) (i : nat) (s : str) : option exc :=
  match s with
  | [] => None
  | c :: s' =>
      if refused h c then Some (encode_error i c (S (surrogate_run s')))
      else first_refused h (S i) s'
  end.

(** [print(s, flush=True)]: the text and a newline are written, or nothing
    is and UnicodeEncodeError is raised. *)
Definition print (h : error_handler) (s : str) : result str :=
  match first_refused h 0 s with
  | Some e => Raise e
  | None => Ok (s ++ [10])
  end.

(** ** The script *)

(** The namespace [parse_args] returns (lines 27-32). *)
Record Args := {
  model : str;                          (* --model / -m, default "default" *)
  session_id : option str;              (* --session-id, default None *)
  append_system_prompt : option str;    (* --append-system-prompt, default None *)
  prompt : option str                   (* positional, nargs="?", default None *)
}.

(** [urllib.request.Request(url, data=..., headers=..., method=...)] and the
    [timeout] it is opened with.  [data] is the JSON text of the payload: it
    is printed with [ensure_ascii] on, so its UTF-8 encoding has one byte per
    character. *)
Record Request := {
  full_url : str;
  data : str;
  headers : list (str * str);
  method : str;
  timeout : Z
}.

(** What an invocation runs in.  [urlopen req] is the outcome of the body of
    the [try] statement for the request [req]: the value [json.loads] returned
    or the exception raised on the way. *)
Record World := {
  environ : gmap str str;
  stdin : str;
  urlopen : Request -> result pyval;
  stdout_errors : error_handler;   (* [sys.stdout.errors] *)
  repr : str -> str                (* [repr(s)], which needs the Unicode tables *)
}.

(** How the process ends: [Exit c] after a return from [main] (0) or
    [sys.exit(c)]; [Uncaught e] when [e] propagates out of [main] and the
    interpreter prints a traceback on standard error. *)
Inductive termination :=
| Exit (code : Z)
| Uncaught (e : exc).

(** What an invocation does: the text written to standard output, the
    requests opened, and how it ends. *)
Record Run := {
  stdout : str;
  calls : list Request;
  status : termination
}.

(** Line 14 *)
Definition ENDPOINT (w : World) : str :=
  default (lit "http://spark:9000") (environ w !! lit "SCRAM_J_ENDPOINT").

(** Lines 15-16 *)
Definition MAX_SYSTEM_PROMPT_CHARS : Z := 800.
Definition MAX_SYSTEM_PROMPT_DUAL : Z := 4000.

(** Lines 17-23 *)
Definition MODEL_MAP : gmap str str :=
  list_to_map
    [ (lit "default", lit "dual-9b");
      (lit "dual", lit "dual-9b");
      (lit "scram-j", lit "scram-j");
      (lit "direct", lit "responder-direct");
      (lit "nemotron", lit "nemotron-direct") ].

(** Lines 35-37: the prompt from the argument or from standard input. *)
Definition read_prompt (a : Args) (w : World) : str :=
  match prompt a with
  | Some p => if truthy (PStr p) then p else strip (stdin w)
  | None => strip (stdin w)
  end.

(** Line 43: [MODEL_MAP.get(args.model, args.model)] *)
Definition resolve (alias : str) : str :=
  default alias (MODEL_MAP !! alias).

(** Line 50: the system-prompt budget of a resolved model. *)
Definition max_sp (m : str) : Z :=
  if bool_decide (m = lit "dual-9b") || bool_decide (m = lit "nemotron-direct")
  then MAX_SYSTEM_PROMPT_DUAL
  else MAX_SYSTEM_PROMPT_CHARS.

(** Lines 51-52 *)
Definition truncate (m : str) (sp : str) : str :=
  if (len sp >? max_sp m)%Z then slice_to (max_sp m) sp else sp.

Definition message (role content : str) : pyval :=
  PDict [(lit "role", PStr role); (lit "content", PStr content)].

(** Lines 46-54 *)
Definition build_messages (m : str) (system : option str) (p : str)
  : list pyval :=
  (if truthy (of_opt system)
   then match system with
        | Some sp => [message (lit "system") (truncate m sp)]
        | None => []
        end
   else [])
  ++ [message (lit "user") p].

(** Lines 57-60, before [.encode("utf-8")] *)
Definition payload (m : str) (messages : list pyval) : str :=
  dumps true (PDict [(lit "model", PStr m); (lit "messages", PList messages)]).

(** Line 62 *)
Definition url (w : World) : str := ENDPOINT w ++ lit "/v1/chat/completions".

(** [urllib.parse.unwrap]: the URL without surrounding whitespace, without
    an enclosing pair of angle brackets and without a leading [URL:]. *)
Definition unwrap (u : str) : str :=
  let u1 := strip u in
  let u2 :=
    if bool_decide (head u1 = Some 60) && bool_decide (last u1 = Some 62)
    then strip (removelast (tail u1)) else u1 in
  if bool_decide (firstn 4 u2 = lit "URL:") then strip (skipn 4 u2) else u2.

(** [u.rpartition('#')] when [u] holds a [#]: what stands before the last
    one and what stands after it. *)
Fixpoint rpartition_hash (u : str) : option (str * str) :=
  match u with
  | [] => None
  | c :: u' =>
      match rpartition_hash u' with
      | Some (before, after) => Some (c :: before, after)
      | None => if c =? 35 then Some ([], u') else None
      end
  end.

(** [urllib.parse._splittag] *)
Definition splittag (u : str) : str * option str :=
  match rpartition_hash u with
  | Some (path, tag) => (path, Some tag)
  | None => (u, None)
  end.

(** Whether [urllib.parse._splittype] finds a type: its regular expression
    asks, at the start, for one or more characters that are neither slash
    nor colon and then a colon; so the first slash or colon is a colon and
    is not the first character. *)
Fixpoint has_type_from (seen : bool) (u : str) : bool :=
  match u with
  | [] => false
  | c :: u' =>
      if c =? 58 then seen
      else if c =? 47 then false
      else has_type_from true u'
  end.

Definition has_type (u : str) : bool := has_type_from false u.

(** The setter of [Request.full_url] keeps the unwrapped URL without its
    fragment and [_parse] looks for the type there. *)
Definition url_ok (u : str) : bool := has_type (fst (splittag (unwrap u))).

(** The property [Request.full_url]: the unwrapped URL, with its fragment
    when that is not empty. *)
Definition Request_full_url (u : str) : str :=
  match splittag (unwrap u) with
  | (path, Some tag) => if truthy (PStr tag) then path ++ [35] ++ tag else path
  | (path, None) => path
  end.

(** Lines 63-68 and the [timeout] of line 71: the request, when the
    constructor returns. *)
Definition build_request (w : World) (m : str) (messages : list pyval)
  : Request :=
  {| full_url := Request_full_url (url w);
     data := payload m messages;
     headers := [(lit "Content-Type", lit "application/json")];
     method := lit "POST";
     timeout := 120 |}.

(** What the constructor raises for a URL without a type. *)
Definition unknown_url_type (w : World) : exc :=
  Exc ValueError (lit "unknown url type: " ++ repr w (Request_full_url (url w))).

(** The event of the two [except] clauses (lines 74-76 and 79-81). *)
Definition error_event (prefix : str) (e : exc) : pyval :=
  PDict [(lit "item",
          PDict [(lit "text", PStr (prefix ++ exc_str e));
                 (lit "type", PStr (lit "message"))])].

(** Lines 85-102: the event built from the decoded response. *)
Definition extract (response : pyval) (session : option str) : result pyval :=
  choices ← py_get response (lit "choices") (PList [PDict []]);
  choice ← py_item0 choices;
  msg ← py_get choice (lit "message") (PDict []);
  content ← py_get msg (lit "content") (PStr (lit "(no response)"));
  usage ← py_get response (lit "usage") (PDict []);
  ext ← py_get response (lit "scram_j") (PDict []);
  trace_id ← py_get ext (lit "trace_id") (PStr []);
  input_tokens ← py_get usage (lit "prompt_tokens") (PInt 0);
  output_tokens ← py_get usage (lit "completion_tokens") (PInt 0);
  total_tokens ← py_get usage (lit "total_tokens") (PInt 0);
  mret (PDict
    [ (lit "thread_id", py_or trace_id (py_or (of_opt session) (PStr [])));
      (lit "item",
       PDict [(lit "text", content); (lit "type", PStr (lit "message"))]);
      (lit "usage",
       PDict [(lit "input_tokens", input_tokens);
              (lit "output_tokens", output_tokens);
              (lit "total_tokens", total_tokens)]) ]).

(** Line 39: the line printed for an empty prompt. *)
Definition EMPTY_PROMPT_LINE : str :=
  qlit "{'item':{'text':'(empty prompt)','type':'message'}}".

(** [print(line, flush=True)] followed by the end of the process with
    status [code], after the requests [opened]: when [print] raises, nothing
    was written and the exception leaves [main]. *)
Definition emit (w : World) (line : str) (opened : list Request) (code : Z)
  : Run :=
  match print (stdout_errors w) line with
  | Ok text => {| stdout := text; calls := opened; status := Exit code |}
  | Raise e => {| stdout := []; calls := opened; status := Uncaught e |}
  end.

(** Lines 26-103.  [return] from [main] ends the process with status 0,
    [sys.exit(1)] with status 1.  Three things can raise outside the [try]
    statement and then leave [main]: the constructor of line 63, the
    extraction of lines 85-102, and [print]. *)
Definition main (a : Args) (w : World) : Run :=
  let p := read_prompt a w in
  if negb (truthy (PStr p)) then emit w EMPTY_PROMPT_LINE [] 0
  else
    let m := resolve (model a) in
    let messages := build_messages m (append_system_prompt a) p in
    if negb (url_ok (url w)) then
      {| stdout := []; calls := []; status := Uncaught (unknown_url_type w) |}
    else
      let req := build_request w m messages in
      match urlopen w req with
      | Raise e =>
          if isinstance e URLError then
            emit w (dumps true (error_event (lit "SCRAM-J connection error: ") e))
              [req] 1
          else if isinstance e Exception then
            emit w (dumps true (error_event (lit "SCRAM-J error: ") e)) [req] 1
          else
            {| stdout := []; calls := [req]; status := Uncaught e |}
      | Ok response =>
          match extract response (session_id a) with
          | Raise e => {| stdout := []; calls := [req]; status := Uncaught e |}
          | Ok output => emit w (dumps false output) [req] 0
          end
      end.

(** The request an invocation opens when its prompt is not empty. *)
Definition request_of (a : Args) (w : World) : Request :=
  build_request w (resolve (model a))
    (build_messages (resolve (model a)) (append_system_prompt a)
       (read_prompt a w)).

(** [v[k]] where it exists, for stating what an event or a response holds. *)
Definition field (k : str) (v : pyval) : option pyval :=
  match v with
  | PDict d => assoc k d
  | _ => None
  end.

(** ** The response, as the data model describes it *)

Definition is_dict (v : pyval) : bool :=
  match v with
  | PDict _ => true
  | _ => false
  end.

Definition absent_or_dict (o : option pyval) : bool :=
  match o with
  | None => true
  | Some v => is_dict v
  end.

(** The Chat Response shape, any field of which may be missing: an object
    whose [choices], when there, is a list that starts with an object whose
    [message], when there, is an object; and whose [usage] and [scram_j],
    when there, are objects. *)
Definition chat_response (r : pyval) : bool :=
  is_dict r
  && match field (lit "choices") r with
     | None => true
     | Some (PList (c :: _)) =>
         is_dict c && absent_or_dict (field (lit "message") c)
     | Some _ => false
     end
  && absent_or_dict (field (lit "usage") r)
  && absent_or_dict (field (lit "scram_j") r).

(** [choices[0]] *)
Definition first_choice (r : pyval) : option pyval :=
  match field (lit "choices") r with
  | Some (PList (c :: _)) => Some c
  | _ => None
  end.

(** [choices[0].message.content] *)
Definition content_of (r : pyval) : option pyval :=
  c ← first_choice r; m ← field (lit "message") c; field (lit "content") m.

(** [usage.<k>] *)
Definition usage_of (k : str) (r : pyval) : option pyval :=
  u ← field (lit "usage") r; field k u.

(** [scram_j.trace_id] *)
Definition trace_id_of (r : pyval) : option pyval :=
  e ← field (lit "scram_j") r; field (lit "trace_id") e.

(** The Output Event of a successful response. *)
Definition output_event (thread_id text input output total : pyval) : pyval :=
  PDict
    [ (lit "thread_id", thread_id);
      (lit "item", PDict [(lit "text", text); (lit "type", PStr (lit "message"))]);
      (lit "usage",
       PDict [(lit "input_tokens", input);
              (lit "output_tokens", output);
              (lit "total_tokens", total)]) ].

(** The thread id by the priority the script applies: the trace id when the
    response has one that is true (for a string: not empty), else the
    session id, else the empty string. *)
Definition thread_id_of (r : pyval) (session : option str) : pyval :=
  match trace_id_of r with
  | Some t => if truthy t then t else PStr (default [] session)
  | None => PStr (default [] session)
  end.

(** The thread id by the priority as C2 words it: the trace id when the
    response has one, else the session id, else the empty string. *)
Definition thread_id_by_presence (r : pyval) (session : option str) : pyval :=
  match trace_id_of r with
  | Some t => t
  | None => PStr (default [] session)
  end.

(** The arguments with another positional prompt, or another session id. *)
Definition with_prompt (a : Args) (p : option str) : Args :=
  {| model := model a; session_id := session_id a;
     append_system_prompt := append_system_prompt a; prompt := p |}.

Definition with_session_id (a : Args) (s : option str) : Args :=
  {| model := model a; session_id := s;
     append_system_prompt := append_system_prompt a; prompt := prompt a |}.

(** A character of the ASCII range. *)
Definition is_ascii (c : char) : bool := c <? 128.

(** ** Sample invocations *)

(** [repr] of a text of printable ASCII without quote or backslash. *)
Definition repr_plain (s : str) : str := [39] ++ s ++ [39].

(** A world with no environment variable set, the given standard input, the
    given outcome of the call and a strict standard output. *)
Definition world_of (input : str) (outcome : result pyval) : World :=
  {| environ := ∅; stdin := input; urlopen := fun _ => outcome;
     stdout_errors := strict; repr := repr_plain |}.

(** The same world with the endpoint variable set. *)
Definition with_endpoint (w : World) (endpoint : str) : World :=
  {| environ := <[ lit "SCRAM_J_ENDPOINT" := endpoint ]> (environ w);
     stdin := stdin w; urlopen := urlopen w;
     stdout_errors := stdout_errors w; repr := repr w |}.

(** Arguments with the default model and no system prompt. *)
Definition args_of (p session : option str) : Args :=
  {| model := lit "default"; session_id := session;
     append_system_prompt := None; prompt := p |}.

(** The response of the worked example of the specification, with the
    given trace id. *)
Definition sample_response (trace_id : str) : pyval :=
  PDict
    [ (lit "choices",
       PList [PDict [(lit "message", PDict [(lit "content", PStr (lit "hi"))])]]);
      (lit "usage",
       PDict [(lit "prompt_tokens", PInt 3);
              (lit "completion_tokens", PInt 1);
              (lit "total_tokens", PInt 4)]);
      (lit "scram_j", PDict [(lit "trace_id", PStr trace_id)]) ].

(** ** Line 60: the encoding of the payload *)

(** One character in UTF-8; [None] where [str.encode] raises
    UnicodeEncodeError (a surrogate) and for a number that is no code
    point. *)
Definition utf8_char (c : char) : option (list N) :=
  if c <? 128 then Some [c]
  else if c <? 2048 then Some [192 + c / 64; 128 + c mod 64]
  else if (55296 <=? c) && (c <=? 57343) then None
  else if c <? 65536 then
    Some [224 + c / 4096; 128 + (c / 64) mod 64; 128 + c mod 64]
  else if c <? 1114112 then
    Some [240 + c / 262144; 128 + (c / 4096) mod 64;
          128 + (c / 64) mod 64; 128 + c mod 64]
  else None.

(** [s.encode("utf-8")] *)
Fixpoint encode_utf8 (s : str) : option (list N) :=
  match s with
  | [] => Some []
  | c :: s' =>
      match utf8_char c, encode_utf8 s' with
      | Some b, Some bs => Some (b ++ bs)
      | _, _ => None
      end
  end.

(** ** What is printed *)

(** A printable ASCII character, [' '] to ['~']. *)
Definition printable (c : char) : bool := (32 <=? c) && (c <=? 126).

(** Not one of the characters U+0000 to U+001F, which [json.dumps] escapes
    also when [ensure_ascii] is off. *)
Definition not_c0 (c : char) : bool := 32 <=? c.

(** The line of line 103 for a response of the expected shape. *)
Definition success_line (r : pyval) (session : option str) : str :=
  dumps false
    (output_event
       (thread_id_of r session)
       (default (PStr (lit "(no response)")) (content_of r))
       (default (PInt 0) (usage_of (lit "prompt_tokens") r))
       (default (PInt 0) (usage_of (lit "completion_tokens") r))
       (default (PInt 0) (usage_of (lit "total_tokens") r))).

(** A character that the encoder with [ensure_ascii] off prints as it is:
    none below U+0020, no double quote, no backslash. *)
Definition verbatim (c : char) : bool :=
  (32 <=? c) && negb (c =? 34) && negb (c =? 92).

(** A float prints as Python prints floats: digits, sign, point, exponent,
    or one of NaN, Infinity, -Infinity; in any case printable ASCII. *)
Definition float_printable (f : pyfloat) : bool :=
  forallb printable (float_repr f).

(** Every float inside a value satisfies [P]. *)
Fixpoint floats_all (P : pyfloat -> bool) (v : pyval) : bool :=
  match v with
  | PFloat f => P f
  | PList l => forallb (floats_all P) l
  | PDict d => forallb (fun kv => let '(_, x) := kv in floats_all P x) d
  | _ => true
  end.

(** The world with another text on standard input. *)
Definition with_stdin (w : World) (input : str) : World :=
  {| environ := environ w; stdin := input; urlopen := urlopen w;
     stdout_errors := stdout_errors w; repr := repr w |}.

(** The exception classes the extraction of lines 85-102 can raise. *)
Definition extraction_error (c : exc_class) : bool :=
  bool_decide (c = AttributeError) || bool_decide (c = IndexError)
  || bool_decide (c = KeyError) || bool_decide (c = TypeError).

(** * Properties *)

(** ** Truth tests *)

Lemma truthy_str (s : str) : truthy (PStr s) = true <-> s <> [].
Proof.
  simpl. destruct s as [|c s]; simpl.
  - split; [discriminate | congruence].
  - split; [discriminate | reflexivity].
Qed.

(** ** The exception classes *)

(** The fuel of [issubclass] reaches the root from every class. *)
Lemma issubclass_root (c : exc_class) : issubclass c BaseException = true.
Proof. destruct c; reflexivity. Qed.

(** What the first [except] clause catches, the second would catch too. *)
Lemma URLError_is_Exception (e : exc) :
  isinstance e URLError = true -> isinstance e Exception = true.
Proof. unfold isinstance. destruct (exc_type e); (reflexivity || discriminate). Qed.

(** ** Model resolution *)

Lemma resolve_unlisted (alias : str) :
  alias ∉ [lit "default"; lit "dual"; lit "scram-j"; lit "direct"; lit "nemotron"] ->
  resolve alias = alias.
Proof.
  intros H. unfold resolve, MODEL_MAP.
  rewrite not_elem_of_list_to_map_1; [reflexivity | exact H].
Qed.

(** C5: model resolution is an exact lookup in the five-entry table, and
    every alias that is not one of the five keys, as it is spelled, comes
    back unchanged: a key in another case or with a space around it is not
    a key. *)
Theorem C5_resolve_exact_lookup :
  resolve (lit "default") = lit "dual-9b" /\
  resolve (lit "dual") = lit "dual-9b" /\
  resolve (lit "scram-j") = lit "scram-j" /\
  resolve (lit "direct") = lit "responder-direct" /\
  resolve (lit "nemotron") = lit "nemotron-direct" /\
  (forall alias : str,
      alias <> lit "default" -> alias <> lit "dual" ->
      alias <> lit "scram-j" -> alias <> lit "direct" ->
      alias <> lit "nemotron" ->
      resolve alias = alias) /\
  resolve (lit "Default") = lit "Default" /\
  resolve (lit " default") = lit " default" /\
  resolve (lit "dual ") = lit "dual ".
Proof.
  repeat split; try (vm_compute; reflexivity).
  intros alias H1 H2 H3 H4 H5. apply resolve_unlisted.
  rewrite !not_elem_of_cons. repeat split; try assumption.
  apply not_elem_of_nil.
Qed.

Lemma C5_resolve_exact_lookup_witness :
  (lit "gpt-4" <> lit "default" /\ lit "gpt-4" <> lit "dual" /\
   lit "gpt-4" <> lit "scram-j" /\ lit "gpt-4" <> lit "direct" /\
   lit "gpt-4" <> lit "nemotron") /\
  resolve (lit "gpt-4") = lit "gpt-4".
Proof.
  assert (Hne : lit "gpt-4" <> lit "default" /\ lit "gpt-4" <> lit "dual" /\
                lit "gpt-4" <> lit "scram-j" /\ lit "gpt-4" <> lit "direct" /\
                lit "gpt-4" <> lit "nemotron")
    by (repeat split; vm_compute; discriminate).
  split; [exact Hne |].
  destruct Hne as (H1 & H2 & H3 & H4 & H5).
  exact (proj1 (proj2 (proj2 (proj2 (proj2 (proj2 C5_resolve_exact_lookup)))))
           (lit "gpt-4") H1 H2 H3 H4 H5).
Defined.

(** ** The message list *)

Lemma max_sp_cases (m : str) :
  (m = lit "dual-9b" \/ m = lit "nemotron-direct") /\ max_sp m = 4000%Z \/
  (m <> lit "dual-9b" /\ m <> lit "nemotron-direct") /\ max_sp m = 800%Z.
Proof.
  unfold max_sp, MAX_SYSTEM_PROMPT_DUAL, MAX_SYSTEM_PROMPT_CHARS.
  destruct (decide (m = lit "dual-9b")) as [E1|N1].
  - rewrite (bool_decide_eq_true_2 _ E1). left. auto.
  - rewrite (bool_decide_eq_false_2 _ N1).
    destruct (decide (m = lit "nemotron-direct")) as [E2|N2].
    + rewrite (bool_decide_eq_true_2 _ E2). left. auto.
    + rewrite (bool_decide_eq_false_2 _ N2). right. auto.
Qed.

Lemma max_sp_pos (m : str) : (0 < max_sp m)%Z.
Proof. destruct (max_sp_cases m) as [[_ ->]|[_ ->]]; reflexivity. Qed.

Lemma truncate_long (m s : str) :
  (len s > max_sp m)%Z -> truncate m s = take (Z.to_nat (max_sp m)) s.
Proof.
  intros H. unfold truncate, slice_to.
  pose proof (max_sp_pos m) as Hpos.
  destruct (Z.gtb_spec (len s) (max_sp m)) as [_|Hle]; [| lia].
  destruct (Z.ltb_spec (max_sp m) 0) as [Hneg|_]; [lia | reflexivity].
Qed.

Lemma truncate_short (m s : str) :
  (len s <= max_sp m)%Z -> truncate m s = s.
Proof.
  intros H. unfold truncate.
  destruct (Z.gtb_spec (len s) (max_sp m)) as [Hgt|_]; [lia | reflexivity].
Qed.

Lemma truncate_len (m s : str) : (len (truncate m s) <= max_sp m)%Z.
Proof.
  pose proof (max_sp_pos m) as Hpos.
  destruct (Z_gt_le_dec (len s) (max_sp m)) as [Hgt|Hle].
  - rewrite (truncate_long m s Hgt). unfold len. rewrite length_take. lia.
  - rewrite (truncate_short m s Hle). exact Hle.
Qed.

Lemma truncate_prefix (m s : str) : truncate m s `prefix_of` s.
Proof.
  destruct (Z_gt_le_dec (len s) (max_sp m)) as [Hgt|Hle].
  - rewrite (truncate_long m s Hgt). apply prefix_take.
  - rewrite (truncate_short m s Hle). reflexivity.
Qed.

Lemma build_messages_system (m sp p : str) :
  sp <> [] ->
  build_messages m (Some sp) p =
    [message (lit "system") (truncate m sp); message (lit "user") p].
Proof.
  intros H. unfold build_messages.
  destruct (truthy (of_opt (Some sp))) eqn:E; [reflexivity |].
  apply (truthy_str sp) in H. simpl in E, H. congruence.
Qed.

Lemma build_messages_no_system (m : str) (system : option str) (p : str) :
  system = None \/ system = Some [] ->
  build_messages m system p = [message (lit "user") p].
Proof. intros [-> | ->]; reflexivity. Qed.

(** C4: the system-prompt budget is 4000 for the resolved models dual-9b
    and nemotron-direct and 800 for every other one; a system prompt longer
    than the budget goes into the system message cut to exactly its first
    budget characters; and whatever the system message holds is no longer
    than the budget and is a prefix of the prompt that was given. *)
Theorem C4_system_prompt_budget (s m : str) :
  (m = lit "dual-9b" \/ m = lit "nemotron-direct" -> max_sp m = 4000%Z) /\
  (m <> lit "dual-9b" -> m <> lit "nemotron-direct" -> max_sp m = 800%Z) /\
  ((len s > max_sp m)%Z ->
   forall p : str,
     build_messages m (Some s) p =
       [message (lit "system") (take (Z.to_nat (max_sp m)) s);
        message (lit "user") p]) /\
  (forall p c : str,
     message (lit "system") c ∈ build_messages m (Some s) p ->
     (len c <= max_sp m)%Z /\ c `prefix_of` s).
Proof.
  split; [| split; [| split]].
  - intros H. destruct (max_sp_cases m) as [[_ E]|[[N1 N2] _]]; [exact E |].
    destruct H; contradiction.
  - intros N1 N2. destruct (max_sp_cases m) as [[[E|E] _]|[_ E]];
      [contradiction | contradiction | exact E].
  - intros Hgt p.
    assert (Hne : s <> []).
    { intros ->. pose proof (max_sp_pos m). unfold len in Hgt. simpl in Hgt. lia. }
    rewrite (build_messages_system m s p Hne), (truncate_long m s Hgt).
    reflexivity.
  - intros p c Hin.
    assert (Hc : c = truncate m s).
    { destruct (decide (s = [])) as [->|Hne].
      - rewrite (build_messages_no_system m (Some []) p (or_intror eq_refl)) in Hin.
        apply list_elem_of_singleton in Hin. vm_compute in Hin. discriminate Hin.
      - rewrite (build_messages_system m s p Hne) in Hin.
        apply elem_of_cons in Hin as [Hin|Hin].
        + injection Hin as ->. reflexivity.
        + apply list_elem_of_singleton in Hin. vm_compute in Hin.
          discriminate Hin. }
    rewrite Hc. split; [apply truncate_len | apply truncate_prefix].
Qed.

Lemma C4_system_prompt_budget_witness :
  max_sp (lit "dual-9b") = 4000%Z /\
  max_sp (lit "scram-j") = 800%Z /\
  build_messages (lit "scram-j") (Some (repeat 97 801)) (lit "hi") =
    [message (lit "system") (repeat 97 800); message (lit "user") (lit "hi")] /\
  (len (repeat 97%N 800) <= 800)%Z /\
  repeat 97 800 `prefix_of` repeat 97 801.
Proof.
  pose proof (C4_system_prompt_budget (repeat 97 801) (lit "scram-j"))
    as (_ & H800 & Hcut & Hany).
  assert (E800 : max_sp (lit "scram-j") = 800%Z)
    by (apply H800; vm_compute; discriminate).
  assert (Hmsgs : build_messages (lit "scram-j") (Some (repeat 97 801)) (lit "hi") =
            [message (lit "system") (repeat 97 800); message (lit "user") (lit "hi")]).
  { rewrite (Hcut ltac:(vm_compute; reflexivity) (lit "hi")).
    vm_compute. reflexivity. }
  assert (Hin : message (lit "system") (repeat 97 800)
                ∈ build_messages (lit "scram-j") (Some (repeat 97 801)) (lit "hi"))
    by (rewrite Hmsgs; apply list_elem_of_here).
  destruct (Hany (lit "hi") (repeat 97 800) Hin) as [Hlen Hpre].
  rewrite E800 in Hlen.
  split.
  - exact (proj1 (C4_system_prompt_budget [] (lit "dual-9b")) (or_introl eq_refl)).
  - auto.
Defined.

(** C3, as the script has it: without a system prompt, or with an empty
    one, the message list is the single user message; with a system prompt
    that is not empty it is the system message followed by the user message;
    the user message holds the whole prompt in every case. *)
Theorem C3_message_list (m : str) (system : option str) (p : str) :
  (system = None \/ system = Some [] ->
   build_messages m system p = [message (lit "user") p]) /\
  (forall sp : str, system = Some sp -> sp <> [] ->
   exists c : str,
     build_messages m system p =
       [message (lit "system") c; message (lit "user") p]) /\
  last (build_messages m system p) = Some (message (lit "user") p).
Proof.
  split; [apply build_messages_no_system |]. split.
  - intros sp -> Hne. exists (truncate m sp).
    apply build_messages_system, Hne.
  - unfold build_messages. apply last_snoc.
Qed.

Lemma C3_message_list_witness :
  build_messages (lit "scram-j") None (lit "hello") =
    [message (lit "user") (lit "hello")] /\
  exists c : str,
    build_messages (lit "scram-j") (Some (lit "be brief")) (lit "hello") =
      [message (lit "system") c; message (lit "user") (lit "hello")].
Proof.
  split.
  - exact (proj1 (C3_message_list (lit "scram-j") None (lit "hello"))
             (or_introl eq_refl)).
  - apply (proj1 (proj2 (C3_message_list (lit "scram-j") (Some (lit "be brief"))
                           (lit "hello"))) (lit "be brief") eq_refl).
    vm_compute. discriminate.
Defined.

(** C3 as it is written fails for a system prompt that is supplied and
    empty ([--append-system-prompt] with an empty value): the truth test of
    line 47 skips it and the list has one message, not two. *)
Lemma C3_supplied_empty_system_prompt :
  build_messages (lit "scram-j") (Some []) (lit "hello") =
    [message (lit "user") (lit "hello")] /\
  length (build_messages (lit "scram-j") (Some []) (lit "hello")) <> 2%nat /\
  map data
    (calls (main {| model := lit "scram-j"; session_id := None;
                    append_system_prompt := Some []; prompt := Some (lit "hello") |}
                 (world_of [] (Ok (PDict []))))) =
    [qlit "{'model': 'scram-j', 'messages': [{'role': 'user', 'content': 'hello'}]}"].
Proof.
  split; [reflexivity |].
  split; [vm_compute; discriminate | vm_compute; reflexivity].
Qed.

(** ** Standard output *)

Lemma ascii_not_refused (h : error_handler) (c : char) :
  is_ascii c = true -> refused h c = false.
Proof.
  unfold is_ascii, refused, is_surrogate. intros H. apply N.ltb_lt in H.
  destruct (N.leb_spec 55296 c); [lia | reflexivity].
Qed.

Lemma ascii_encodable (h : error_handler) (s : str) :
  forallb is_ascii s = true -> encodable h s = true.
Proof.
  unfold encodable. induction s as [|c s IH]; [reflexivity |].
  cbn [forallb]. intros H. apply andb_prop in H as [Hc Hs].
  rewrite (ascii_not_refused h c Hc), (IH Hs). reflexivity.
Qed.

Lemma first_refused_None (h : error_handler) (s : str) (i : nat) :
  encodable h s = true -> first_refused h i s = None.
Proof.
  unfold encodable. revert i. induction s as [|c s IH]; [reflexivity |].
  cbn [forallb first_refused]. intros i H. apply andb_prop in H as [Hc Hs].
  apply negb_true_iff in Hc. rewrite Hc. apply IH, Hs.
Qed.

Lemma first_refused_Some (h : error_handler) (s : str) (i : nat) :
  encodable h s = false ->
  exists e : exc,
    first_refused h i s = Some e /\ exc_type e = UnicodeEncodeError.
Proof.
  unfold encodable. revert i. induction s as [|c s IH]; [discriminate |].
  cbn [forallb first_refused]. intros i H.
  destruct (refused h c); [eexists; split; reflexivity |].
  apply IH, H.
Qed.

(** [print] writes the text and the newline when every character can be
    encoded. *)
Lemma print_encodable (h : error_handler) (s : str) :
  encodable h s = true -> print h s = Ok (s ++ [10]).
Proof. intros H. unfold print. rewrite (first_refused_None h s 0 H). reflexivity. Qed.

(** Otherwise it raises UnicodeEncodeError. *)
Lemma print_unencodable (h : error_handler) (s : str) :
  encodable h s = false ->
  exists e : exc, print h s = Raise e /\ exc_type e = UnicodeEncodeError.
Proof.
  intros H. destruct (first_refused_Some h s 0 H) as (e & He & Hc).
  exists e. unfold print. rewrite He. auto.
Qed.

Lemma emit_encodable (w : World) (line : str) (opened : list Request) (code : Z) :
  encodable (stdout_errors w) line = true ->
  emit w line opened code =
    {| stdout := line ++ [10]; calls := opened; status := Exit code |}.
Proof. intros H. unfold emit. rewrite (print_encodable _ _ H). reflexivity. Qed.

Lemma emit_unencodable (w : World) (line : str) (opened : list Request) (code : Z) :
  encodable (stdout_errors w) line = false ->
  exists e : exc,
    exc_type e = UnicodeEncodeError /\
    emit w line opened code =
      {| stdout := []; calls := opened; status := Uncaught e |}.
Proof.
  intros H. destruct (print_unencodable _ _ H) as (e & He & Hc).
  exists e. unfold emit. rewrite He. auto.
Qed.

Lemma emit_ascii (w : World) (line : str) (opened : list Request) (code : Z) :
  forallb is_ascii line = true ->
  emit w line opened code =
    {| stdout := line ++ [10]; calls := opened; status := Exit code |}.
Proof. intros H. apply emit_encodable, ascii_encodable, H. Qed.

Lemma calls_emit (w : World) (line : str) (opened : list Request) (code : Z) :
  calls (emit w line opened code) = opened.
Proof. unfold emit. destruct (print (stdout_errors w) line); reflexivity. Qed.

(** ** The branches of [main] *)

Lemma main_empty (a : Args) (w : World) :
  read_prompt a w = [] ->
  main a w =
    {| stdout := EMPTY_PROMPT_LINE ++ [10]; calls := []; status := Exit 0 |}.
Proof.
  intros H. unfold main. rewrite H. cbn [truthy negb].
  apply emit_ascii. vm_compute. reflexivity.
Qed.

(** Line 63 raises for a URL without a type: nothing is opened and nothing
    is printed. *)
Lemma main_no_type (a : Args) (w : World) :
  read_prompt a w <> [] ->
  url_ok (url w) = false ->
  main a w =
    {| stdout := []; calls := []; status := Uncaught (unknown_url_type w) |}.
Proof.
  intros H Hurl. apply (truthy_str (read_prompt a w)) in H.
  unfold main. rewrite H, Hurl. reflexivity.
Qed.

Lemma main_opened (a : Args) (w : World) :
  read_prompt a w <> [] ->
  url_ok (url w) = true ->
  main a w =
    match urlopen w (request_of a w) with
    | Raise e =>
        if isinstance e URLError then
          emit w (dumps true (error_event (lit "SCRAM-J connection error: ") e))
            [request_of a w] 1
        else if isinstance e Exception then
          emit w (dumps true (error_event (lit "SCRAM-J error: ") e))
            [request_of a w] 1
        else
          {| stdout := []; calls := [request_of a w]; status := Uncaught e |}
    | Ok response =>
        match extract response (session_id a) with
        | Raise e =>
            {| stdout := []; calls := [request_of a w]; status := Uncaught e |}
        | Ok output => emit w (dumps false output) [request_of a w] 0
        end
    end.
Proof.
  intros H Hurl. apply (truthy_str (read_prompt a w)) in H.
  unfold main. rewrite H, Hurl. reflexivity.
Qed.

Lemma main_calls (a : Args) (w : World) :
  calls (main a w) =
    if bool_decide (read_prompt a w = []) then []
    else if url_ok (url w) then [request_of a w] else [].
Proof.
  case_bool_decide as H.
  - rewrite (main_empty a w H). reflexivity.
  - destruct (url_ok (url w)) eqn:Hurl.
    + rewrite (main_opened a w H Hurl).
      destruct (urlopen w (request_of a w)) as [r|e].
      * destruct (extract r (session_id a)); [apply calls_emit | reflexivity].
      * destruct (isinstance e URLError); [apply calls_emit |].
        destruct (isinstance e Exception); [apply calls_emit | reflexivity].
    + rewrite (main_no_type a w H Hurl). reflexivity.
Qed.

Lemma read_prompt_stdin (a : Args) (w : World) :
  prompt a = None \/ prompt a = Some [] -> read_prompt a w = strip (stdin w).
Proof. unfold read_prompt. intros [-> | ->]; reflexivity. Qed.

Lemma read_prompt_arg (a : Args) (w : World) (p : str) :
  prompt a = Some p -> p <> [] -> read_prompt a w = p.
Proof.
  unfold read_prompt. intros -> H. apply (truthy_str p) in H.
  rewrite H. reflexivity.
Qed.

(** ** The empty prompt *)




(** ** The empty positional argument *)

(** C9: a positional prompt that is supplied and empty is treated as an
    absent one: the run is the run without the argument, the prompt is
    standard input trimmed, and a request, when one is opened, carries that
    trimmed text, which is not empty, as its user message. *)
Theorem C9_empty_argument_reads_stdin (a : Args) (w : World) :
  prompt a = Some [] ->
  main a w = main (with_prompt a None) w /\
  read_prompt a w = strip (stdin w) /\
  (forall req : Request, req ∈ calls (main a w) ->
     strip (stdin w) <> [] /\
     exists messages : list pyval,
       data req = payload (resolve (model a)) messages /\
       last messages = Some (message (lit "user") (strip (stdin w)))).
Proof.
  intros Hp.
  assert (E : read_prompt a w = strip (stdin w))
    by (apply read_prompt_stdin; right; exact Hp).
  split; [| split; [exact E |]].
  - unfold main, read_prompt. rewrite Hp. reflexivity.
  - intros req. rewrite main_calls.
    case_bool_decide as Hne; [intros H; apply elem_of_nil in H; contradiction |].
    destruct (url_ok (url w));
      [| intros H; apply elem_of_nil in H; contradiction].
    intros ->%list_elem_of_singleton. rewrite E in Hne.
    split; [exact Hne |].
    exists (build_messages (resolve (model a)) (append_system_prompt a)
              (strip (stdin w))).
    unfold request_of. rewrite E. split; [reflexivity |].
    unfold build_messages. apply last_snoc.
Qed.

Lemma C9_empty_argument_reads_stdin_witness :
  main (args_of (Some []) None) (world_of (lit " hi ") (Ok (PDict []))) =
  main (args_of None None) (world_of (lit " hi ") (Ok (PDict []))) /\
  read_prompt (args_of (Some []) None) (world_of (lit " hi ") (Ok (PDict [])))
  = lit "hi".
Proof.
  destruct (C9_empty_argument_reads_stdin (args_of (Some []) None)
              (world_of (lit " hi ") (Ok (PDict []))) eq_refl) as (Hmain & Hread & _).
  split; [exact Hmain |].
  rewrite Hread. vm_compute. reflexivity.
Defined.

(** ** The extraction of the response *)

Arguments lit : simpl never.

Lemma py_or_session (session : option str) :
  py_or (of_opt session) (PStr []) = PStr (default [] session).
Proof. destruct session as [[|c s]|]; reflexivity. Qed.

Lemma thread_id_of_or (r : pyval) (session : option str) :
  py_or (default (PStr []) (trace_id_of r)) (py_or (of_opt session) (PStr []))
  = thread_id_of r session.
Proof.
  rewrite py_or_session. unfold thread_id_of, py_or.
  destruct (trace_id_of r) as [t|]; reflexivity.
Qed.

(** On a response of the expected shape the extraction returns, and what it
    returns is the event of the fields found, each missing one replaced by
    its default. *)
Lemma extract_chat_response (r : pyval) (session : option str) :
  chat_response r = true ->
  extract r session =
    Ok (output_event
          (thread_id_of r session)
          (default (PStr (lit "(no response)")) (content_of r))
          (default (PInt 0) (usage_of (lit "prompt_tokens") r))
          (default (PInt 0) (usage_of (lit "completion_tokens") r))
          (default (PInt 0) (usage_of (lit "total_tokens") r))).
Proof.
  intros H. rewrite <- thread_id_of_or.
  destruct r as [| | | | | |d]; try discriminate H.
  unfold chat_response, extract, content_of, usage_of, trace_id_of,
    first_choice, output_event in *.
  simpl in *.
  destruct (assoc (lit "choices") d) as [[| | | | |[|c l]|]|];
    simpl in *; try discriminate H.
  - destruct c as [| | | | | |dc]; simpl in *; try discriminate H.
    destruct (assoc (lit "message") dc) as [[| | | | | |dm]|];
      simpl in *; try discriminate H;
      destruct (assoc (lit "usage") d) as [[| | | | | |du]|];
      simpl in *; try discriminate H;
      destruct (assoc (lit "scram_j") d) as [[| | | | | |de]|];
      simpl in *; try discriminate H; reflexivity.
  - destruct (assoc (lit "usage") d) as [[| | | | | |du]|];
      simpl in *; try discriminate H;
      destruct (assoc (lit "scram_j") d) as [[| | | | | |de]|];
      simpl in *; try discriminate H; reflexivity.
Qed.

(** The shape is exactly what the extraction needs: on any other value it
    raises. *)
Lemma extract_raises (r : pyval) (session : option str) :
  chat_response r = false -> exists e : exc, extract r session = Raise e.
Proof.
  intros H.
  destruct r as [| | | | | |d]; try (eexists; reflexivity).
  unfold chat_response, extract in *. simpl in *.
  destruct (assoc (lit "choices") d) as [[| | | |[|ch s]|[|c l]|]|];
    simpl in *; try (eexists; reflexivity).
  - destruct c as [| | | | | |dc]; simpl in *; try (eexists; reflexivity).
    destruct (assoc (lit "message") dc) as [[| | | | | |dm]|];
      simpl in *; try (eexists; reflexivity);
      destruct (assoc (lit "usage") d) as [[| | | | | |du]|];
      simpl in *; try (eexists; reflexivity);
      destruct (assoc (lit "scram_j") d) as [[| | | | | |de]|];
      simpl in *; try (eexists; reflexivity); discriminate H.
  - destruct (assoc (lit "usage") d) as [[| | | | | |du]|];
      simpl in *; try (eexists; reflexivity);
      destruct (assoc (lit "scram_j") d) as [[| | | | | |de]|];
      simpl in *; try (eexists; reflexivity); discriminate H.
Qed.

Lemma success_line_extracted (r : pyval) (session : option str) :
  chat_response r = true ->
  exists event : pyval,
    extract r session = Ok event /\ dumps false event = success_line r session.
Proof.
  intros H. eexists. split; [apply extract_chat_response, H | reflexivity].
Qed.

Lemma main_success (a : Args) (w : World) (r : pyval) :
  read_prompt a w <> [] ->
  url_ok (url w) = true ->
  urlopen w (request_of a w) = Ok r ->
  chat_response r = true ->
  main a w = emit w (success_line r (session_id a)) [request_of a w] 0.
Proof.
  intros Hp Hurl Hr Hshape.
  rewrite (main_opened a w Hp Hurl), Hr.
  rewrite (extract_chat_response r (session_id a) Hshape). reflexivity.
Qed.

Lemma main_crash (a : Args) (w : World) (r : pyval) :
  read_prompt a w <> [] ->
  url_ok (url w) = true ->
  urlopen w (request_of a w) = Ok r ->
  chat_response r = false ->
  exists e : exc,
    main a w = {| stdout := []; calls := [request_of a w]; status := Uncaught e |}.
Proof.
  intros Hp Hurl Hr Hshape.
  destruct (extract_raises r (session_id a) Hshape) as [e He].
  exists e. rewrite (main_opened a w Hp Hurl), Hr, He. reflexivity.
Qed.

(** ** The event of a successful response *)

(** C2, as the script has it: for a response of the expected shape whose
    line standard output can encode, the script prints the event whose text
    is [choices[0].message.content], or (no response) when that field is
    missing; whose three usage counts are those of the response, each 0
    when missing; and whose thread id is the trace id when the response has
    one that is not empty, else the session id, else the empty string; and
    it ends with status 0.  The worked example of the specification gives
    the event of the specification. *)
Theorem C2_success_event (a : Args) (w : World) (r : pyval) :
  read_prompt a w <> [] ->
  url_ok (url w) = true ->
  urlopen w (request_of a w) = Ok r ->
  chat_response r = true ->
  (encodable (stdout_errors w) (success_line r (session_id a)) = true ->
   main a w =
     {| stdout :=
          dumps false
            (output_event
               (thread_id_of r (session_id a))
               (default (PStr (lit "(no response)")) (content_of r))
               (default (PInt 0) (usage_of (lit "prompt_tokens") r))
               (default (PInt 0) (usage_of (lit "completion_tokens") r))
               (default (PInt 0) (usage_of (lit "total_tokens") r)))
          ++ [10];
        calls := [request_of a w];
        status := Exit 0 |}) /\
  (r = sample_response (lit "abc") -> session_id a = Some (lit "s1") ->
   output_event
     (thread_id_of r (session_id a))
     (default (PStr (lit "(no response)")) (content_of r))
     (default (PInt 0) (usage_of (lit "prompt_tokens") r))
     (default (PInt 0) (usage_of (lit "completion_tokens") r))
     (default (PInt 0) (usage_of (lit "total_tokens") r))
   = output_event (PStr (lit "abc")) (PStr (lit "hi")) (PInt 3) (PInt 1) (PInt 4) /\
   main a w =
     {| stdout :=
          qlit "{'thread_id': 'abc', 'item': {'text': 'hi', 'type': 'message'}, 'usage': {'input_tokens': 3, 'output_tokens': 1, 'total_tokens': 4}}"
          ++ [10];
        calls := [request_of a w];
        status := Exit 0 |}).
Proof.
  intros Hp Hurl Hr Hshape.
  pose proof (main_success a w r Hp Hurl Hr Hshape) as Hmain.
  split.
  - intros Henc. rewrite Hmain. apply emit_encodable, Henc.
  - intros -> Hs. rewrite Hmain, Hs. split; [vm_compute; reflexivity |].
    rewrite emit_ascii; [| vm_compute; reflexivity].
    f_equal.
Qed.

Lemma C2_success_event_witness :
  main (args_of (Some (lit "hello")) (Some (lit "s1")))
       (world_of [] (Ok (sample_response (lit "abc")))) =
    {| stdout :=
         qlit "{'thread_id': 'abc', 'item': {'text': 'hi', 'type': 'message'}, 'usage': {'input_tokens': 3, 'output_tokens': 1, 'total_tokens': 4}}"
         ++ [10];
       calls := [request_of (args_of (Some (lit "hello")) (Some (lit "s1")))
                   (world_of [] (Ok (sample_response (lit "abc"))))];
       status := Exit 0 |}.
Proof.
  destruct (C2_success_event
              (args_of (Some (lit "hello")) (Some (lit "s1")))
              (world_of [] (Ok (sample_response (lit "abc"))))
              (sample_response (lit "abc")))
    as [Hmain _].
  - vm_compute. discriminate.
  - vm_compute. reflexivity.
  - reflexivity.
  - vm_compute. reflexivity.
  - rewrite Hmain; [vm_compute; reflexivity |].
    vm_compute. reflexivity.
Defined.

(** C2 as it is written fails for a response whose trace id is there and
    empty: by the priority as worded the thread id would be that trace id,
    the empty string; the script prints the session id. *)
Lemma C2_empty_trace_id_yields_session_id :
  chat_response (sample_response []) = true /\
  trace_id_of (sample_response []) = Some (PStr []) /\
  thread_id_by_presence (sample_response []) (Some (lit "s1")) = PStr [] /\
  stdout (main (args_of (Some (lit "hello")) (Some (lit "s1")))
               (world_of [] (Ok (sample_response [])))) =
    qlit "{'thread_id': 's1', 'item': {'text': 'hi', 'type': 'message'}, 'usage': {'input_tokens': 3, 'output_tokens': 1, 'total_tokens': 4}}"
    ++ [10] /\
  stdout (main (args_of (Some (lit "hello")) (Some (lit "s1")))
               (world_of [] (Ok (sample_response [])))) <>
    dumps false
      (output_event
         (thread_id_by_presence (sample_response []) (Some (lit "s1")))
         (PStr (lit "hi")) (PInt 3) (PInt 1) (PInt 4))
    ++ [10].
Proof.
  repeat split; try (vm_compute; reflexivity).
  vm_compute. discriminate.
Qed.

(** ** The thread id *)

Lemma thread_id_of_trace (r t : pyval) (session : option str) :
  trace_id_of r = Some t -> truthy t = true -> thread_id_of r session = t.
Proof. intros Ht Htrue. unfold thread_id_of. rewrite Ht, Htrue. reflexivity. Qed.

Lemma thread_id_of_session (r : pyval) (session : option str) :
  trace_id_of r = None \/ trace_id_of r = Some (PStr []) ->
  thread_id_of r session = PStr (default [] session).
Proof. unfold thread_id_of. intros [-> | ->]; reflexivity. Qed.

Lemma extract_empty_session (r : pyval) :
  extract r (Some []) = extract r None.
Proof. reflexivity. Qed.

(** C10: for a response of the expected shape whose trace id is there and
    empty, the thread id of the event is the session id, or the empty string
    when no session id was given, which is what it is when the trace id is
    missing; that event is what is printed, when standard output can encode
    its line; and a session id that is given and empty gives the run of no
    session id. *)
Theorem C10_empty_ids_count_as_absent (a : Args) (w : World) (r : pyval) :
  read_prompt a w <> [] ->
  url_ok (url w) = true ->
  urlopen w (request_of a w) = Ok r ->
  chat_response r = true ->
  (trace_id_of r = Some (PStr []) \/ trace_id_of r = None ->
   let event :=
     output_event
       (PStr (default [] (session_id a)))
       (default (PStr (lit "(no response)")) (content_of r))
       (default (PInt 0) (usage_of (lit "prompt_tokens") r))
       (default (PInt 0) (usage_of (lit "completion_tokens") r))
       (default (PInt 0) (usage_of (lit "total_tokens") r)) in
   extract r (session_id a) = Ok event /\
   (encodable (stdout_errors w) (dumps false event) = true ->
    main a w =
      {| stdout := dumps false event ++ [10];
         calls := [request_of a w];
         status := Exit 0 |})) /\
  main (with_session_id a (Some [])) w = main (with_session_id a None) w.
Proof.
  intros Hp Hurl Hr Hshape. split.
  - intros Ht event.
    assert (Hev : extract r (session_id a) = Ok event).
    { rewrite (extract_chat_response r (session_id a) Hshape).
      rewrite (thread_id_of_session r (session_id a)); [reflexivity |].
      destruct Ht; auto. }
    split; [exact Hev |]. intros Henc.
    rewrite (main_opened a w Hp Hurl), Hr, Hev.
    apply emit_encodable, Henc.
  - reflexivity.
Qed.

Lemma C10_empty_ids_count_as_absent_witness :
  stdout (main (args_of (Some (lit "hello")) (Some (lit "s1")))
               (world_of [] (Ok (sample_response [])))) =
    qlit "{'thread_id': 's1', 'item': {'text': 'hi', 'type': 'message'}, 'usage': {'input_tokens': 3, 'output_tokens': 1, 'total_tokens': 4}}"
    ++ [10].
Proof.
  destruct (C10_empty_ids_count_as_absent
              (args_of (Some (lit "hello")) (Some (lit "s1")))
              (world_of [] (Ok (sample_response [])))
              (sample_response []))
    as [Hev _].
  - vm_compute. discriminate.
  - vm_compute. reflexivity.
  - reflexivity.
  - vm_compute. reflexivity.
  - destruct (Hev ltac:(left; vm_compute; reflexivity)) as [_ Hmain].
    rewrite Hmain; vm_compute; reflexivity.
Defined.

(** ** What the two encoders do to a character outside ASCII *)

Lemma hex_digit_ascii (n : N) : n < 16 -> is_ascii (hex_digit n) = true.
Proof.
  intros H. unfold is_ascii, hex_digit.
  destruct (N.ltb_spec n 10); apply N.ltb_lt; lia.
Qed.

Lemma u_escape_ascii (n : N) : forallb is_ascii (u_escape n) = true.
Proof.
  unfold u_escape, hex4. rewrite forallb_app. apply andb_true_intro. split.
  - vm_compute. reflexivity.
  - simpl. rewrite !hex_digit_ascii; [reflexivity | ..];
      apply N.mod_upper_bound; discriminate.
Qed.

Lemma short_escape_ascii (c : char) (e : str) :
  short_escape c = Some e -> forallb is_ascii e = true.
Proof.
  unfold short_escape.
  repeat (match goal with
          | |- context [if ?b then _ else _] => destruct b
          end; [intros [= <-]; vm_compute; reflexivity |]).
  discriminate.
Qed.

Lemma escape_char_ascii_ascii (c : char) :
  forallb is_ascii (escape_char_ascii c) = true.
Proof.
  unfold escape_char_ascii.
  destruct (short_escape c) as [e|] eqn:E; [exact (short_escape_ascii c e E) |].
  assert (Hesc : forallb is_ascii
            (if c <? 65536 then u_escape c
             else u_escape (N.lor 55296 (N.land (N.shiftr (c - 65536) 10) 1023))
                  ++ u_escape (N.lor 56320 (N.land (c - 65536) 1023))) = true).
  { destruct (c <? 65536); [apply u_escape_ascii |].
    rewrite forallb_app, !u_escape_ascii. reflexivity. }
  destruct (N.leb_spec 32 c) as [Hlo|Hlo]; [| exact Hesc].
  destruct (N.leb_spec c 126) as [Hhi|Hhi]; [| exact Hesc].
  simpl. rewrite andb_true_r. apply N.ltb_lt. lia.
Qed.

(** With [ensure_ascii] on, a string is printed in ASCII whatever it
    holds. *)
Lemma encode_str_ascii (s : str) : forallb is_ascii (encode_str true s) = true.
Proof.
  unfold encode_str. rewrite !forallb_app. simpl. rewrite andb_true_r.
  induction s as [|c s IH]; [reflexivity |].
  simpl. rewrite forallb_app, escape_char_ascii_ascii. exact IH.
Qed.

(** With [ensure_ascii] off, a character outside ASCII is printed as it
    is. *)
Lemma escape_char_literal (c : char) : 128 <= c -> escape_char c = [c].
Proof.
  intros H. unfold escape_char, short_escape.
  repeat (match goal with
          | |- context [?x =? ?y] =>
              destruct (N.eqb_spec x y) as [?|_]; [lia |]
          end).
  destruct (N.ltb_spec c 32); [lia | reflexivity].
Qed.

(** The line of an [except] clause is ASCII, whatever the detail of the
    exception holds. *)
Lemma error_line_ascii (prefix : str) (e : exc) :
  forallb is_ascii (dumps true (error_event prefix e)) = true.
Proof.
  unfold error_event. cbn [dumps join_comma].
  rewrite !forallb_app, !encode_str_ascii. vm_compute. reflexivity.
Qed.

Lemma emit_error_line (w : World) (prefix : str) (e : exc)
    (opened : list Request) (code : Z) :
  emit w (dumps true (error_event prefix e)) opened code =
    {| stdout := dumps true (error_event prefix e) ++ [10];
       calls := opened; status := Exit code |}.
Proof. apply emit_ascii, error_line_ascii. Qed.

Lemma main_failure_ascii (a : Args) (w : World) (e : exc) :
  read_prompt a w <> [] ->
  url_ok (url w) = true ->
  urlopen w (request_of a w) = Raise e ->
  forallb is_ascii (stdout (main a w)) = true.
Proof.
  intros Hp Hurl Hr. rewrite (main_opened a w Hp Hurl), Hr.
  destruct (isinstance e URLError);
    [rewrite emit_error_line; cbn [stdout]; rewrite forallb_app, error_line_ascii;
     reflexivity |].
  destruct (isinstance e Exception);
    [rewrite emit_error_line; cbn [stdout]; rewrite forallb_app, error_line_ascii;
     reflexivity | reflexivity].
Qed.

(** ** The failure events *)

(** C7, as the script has it: the two [except] clauses go by the class of
    the exception.  When the body of the [try] raises a [URLError], the
    script prints the event whose only field is the item with the text
    SCRAM-J connection error: and the detail, so without thread id and
    usage, and exits with status 1; when it raises any other [Exception],
    the text is SCRAM-J error: and the detail, and the status is 1 again. *)
Theorem C7_failure_events (a : Args) (w : World) (e : exc) :
  read_prompt a w <> [] ->
  url_ok (url w) = true ->
  urlopen w (request_of a w) = Raise e ->
  (isinstance e URLError = true ->
   let event :=
     PDict [(lit "item",
             PDict [(lit "text",
                     PStr (lit "SCRAM-J connection error: " ++ exc_str e));
                    (lit "type", PStr (lit "message"))])] in
   main a w =
     {| stdout := dumps true event ++ [10];
        calls := [request_of a w];
        status := Exit 1 |} /\
   field (lit "thread_id") event = None /\
   field (lit "usage") event = None) /\
  (isinstance e URLError = false -> isinstance e Exception = true ->
   main a w =
     {| stdout :=
          dumps true
            (PDict [(lit "item",
                     PDict [(lit "text",
                             PStr (lit "SCRAM-J error: " ++ exc_str e));
                            (lit "type", PStr (lit "message"))])])
          ++ [10];
        calls := [request_of a w];
        status := Exit 1 |}).
Proof.
  intros Hp Hurl Hr.
  pose proof (main_opened a w Hp Hurl) as Hmain. rewrite Hr in Hmain.
  split.
  - intros He event. rewrite He, emit_error_line in Hmain.
    split; [exact Hmain | split; reflexivity].
  - intros He Hexc. rewrite He, Hexc, emit_error_line in Hmain. exact Hmain.
Qed.

Lemma C7_failure_events_witness :
  stdout (main (args_of (Some (lit "hello")) None)
               (world_of [] (Raise (Exc URLError
                  (lit "<urlopen error [Errno 111] Connection refused>"))))) =
    qlit "{'item': {'text': 'SCRAM-J connection error: <urlopen error [Errno 111] Connection refused>', 'type': 'message'}}"
    ++ [10] /\
  stdout (main (args_of (Some (lit "hello")) None)
               (world_of [] (Raise (Exc JSONDecodeError
                  (lit "Expecting value: line 1 column 1 (char 0)"))))) =
    qlit "{'item': {'text': 'SCRAM-J error: Expecting value: line 1 column 1 (char 0)', 'type': 'message'}}"
    ++ [10].
Proof.
  split.
  - destruct (C7_failure_events
                (args_of (Some (lit "hello")) None)
                (world_of [] (Raise (Exc URLError
                   (lit "<urlopen error [Errno 111] Connection refused>"))))
                (Exc URLError (lit "<urlopen error [Errno 111] Connection refused>")))
      as [H _].
    + vm_compute. discriminate.
    + vm_compute. reflexivity.
    + reflexivity.
    + destruct (H eq_refl) as [Hmain _]. rewrite Hmain. vm_compute. reflexivity.
  - destruct (C7_failure_events
                (args_of (Some (lit "hello")) None)
                (world_of [] (Raise (Exc JSONDecodeError
                   (lit "Expecting value: line 1 column 1 (char 0)"))))
                (Exc JSONDecodeError (lit "Expecting value: line 1 column 1 (char 0)")))
      as [_ H].
    + vm_compute. discriminate.
    + vm_compute. reflexivity.
    + reflexivity.
    + rewrite (H eq_refl eq_refl). vm_compute. reflexivity.
Defined.

(** C7 as it is written fails for a timeout: when the time runs out while
    the script waits for the response, the body of the [try] raises a bare
    TimeoutError, which is no [URLError], and the event has the text of the
    second clause, not the connection error of the claim. *)
Lemma C7_response_timeout_is_no_connection_error :
  isinstance (Exc TimeoutError (lit "timed out")) URLError = false /\
  main (args_of (Some (lit "hello")) None)
       (world_of [] (Raise (Exc TimeoutError (lit "timed out")))) =
    {| stdout :=
         qlit "{'item': {'text': 'SCRAM-J error: timed out', 'type': 'message'}}"
         ++ [10];
       calls := [request_of (args_of (Some (lit "hello")) None)
                   (world_of [] (Raise (Exc TimeoutError (lit "timed out"))))];
       status := Exit 1 |}.
Proof. split; vm_compute; reflexivity. Qed.

(** ** Where the script leaves the protocol *)

(** C1, evaluated where it fails: a response whose [choices] is the empty
    list makes [choices[0]] raise IndexError, and a response that is a list
    makes [data.get] raise AttributeError; both are raised after the [try]
    statement, so nothing is printed and the exception leaves [main]. *)
Theorem C1_unexpected_shape_escapes :
  main (args_of (Some (lit "hello")) None)
       (world_of [] (Ok (PDict [(lit "choices", PList [])]))) =
    {| stdout := [];
       calls := [request_of (args_of (Some (lit "hello")) None)
                   (world_of [] (Ok (PDict [(lit "choices", PList [])])))];
       status := Uncaught (Exc IndexError (lit "list index out of range")) |} /\
  main (args_of (Some (lit "hello")) None) (world_of [] (Ok (PList []))) =
    {| stdout := [];
       calls := [request_of (args_of (Some (lit "hello")) None)
                   (world_of [] (Ok (PList [])))];
       status := Uncaught (Exc AttributeError
                             (lit "'list' object has no attribute 'get'")) |}.
Proof. split; vm_compute; reflexivity. Qed.

(** C8, evaluated where it fails: the two [except] clauses call
    [json.dumps] without [ensure_ascii=False], so the e-acute (233) of a
    failure detail is printed as a numeric escape, while the same character
    in the content of a successful response is printed as it is. *)
Theorem C8_failure_detail_is_escaped :
  stdout (main (args_of (Some (lit "hello")) None)
               (world_of [] (Raise (Exc HTTPError
                                      (lit "HTTP Error 404: Non trouv" ++ [233]))))) =
    qlit "{'item': {'text': 'SCRAM-J connection error: HTTP Error 404: Non trouv\u00e9', 'type': 'message'}}"
    ++ [10] /\
  stdout (main (args_of (Some (lit "hello")) None)
               (world_of [] (Raise (Exc ValueError (lit "caf" ++ [233]))))) =
    qlit "{'item': {'text': 'SCRAM-J error: caf\u00e9', 'type': 'message'}}"
    ++ [10] /\
  stdout (main (args_of (Some (lit "hello")) None)
               (world_of [] (Ok (PDict
                  [(lit "choices",
                    PList [PDict [(lit "message",
                                   PDict [(lit "content",
                                           PStr (lit "caf" ++ [233]))])]])])))) =
    qlit "{'thread_id': '', 'item': {'text': 'caf" ++ [233]
    ++ qlit "', 'type': 'message'}, 'usage': {'input_tokens': 0, 'output_tokens': 0, 'total_tokens': 0}}"
    ++ [10].
Proof. repeat split; vm_compute; reflexivity. Qed.

(** * Further properties of the script *)

(** ** Induction on values *)

Lemma pyval_ind_nested (P : pyval -> Prop) :
  P PNone ->
  (forall b, P (PBool b)) ->
  (forall z, P (PInt z)) ->
  (forall f, P (PFloat f)) ->
  (forall s, P (PStr s)) ->
  (forall l, Forall P l -> P (PList l)) ->
  (forall d, Forall (fun kv => P (snd kv)) d -> P (PDict d)) ->
  forall v, P v.
Proof.
  intros HNone HBool HInt HFloat HStr HList HDict.
  fix IH 1. intros [| b | z | f | s | l | d].
  - exact HNone.
  - apply HBool.
  - apply HInt.
  - apply HFloat.
  - apply HStr.
  - apply HList. induction l as [|x l IHl]; constructor; [apply IH | exact IHl].
  - apply HDict. induction d as [|[k x] d IHd]; constructor; [apply IH | exact IHd].
Qed.

Lemma dumps_list (ea : bool) (l : list pyval) :
  dumps ea (PList l) = lit "[" ++ join_comma (map (dumps ea) l) ++ lit "]".
Proof. reflexivity. Qed.

Lemma dumps_dict (ea : bool) (d : list (str * pyval)) :
  dumps ea (PDict d) =
    lit "{" ++
    join_comma (map (fun kv => encode_str ea (fst kv) ++ lit ": " ++ dumps ea (snd kv)) d)
    ++ lit "}".
Proof.
  cbn [dumps]. do 3 f_equal.
  induction d as [|[k x] d IH]; [reflexivity |].
  cbn [map fst snd]. rewrite <- IH. reflexivity.
Qed.

(** ** The characters of a printed value *)

Lemma forallb_weaken (P Q : char -> bool) (s : str) :
  (forall c, P c = true -> Q c = true) ->
  forallb P s = true -> forallb Q s = true.
Proof.
  intros HPQ H. induction s as [|c s IH]; [reflexivity |].
  cbn [forallb] in *. apply andb_prop in H as [Hc Hs].
  rewrite (HPQ c Hc), (IH Hs). reflexivity.
Qed.

Lemma printable_not_c0 (c : char) :
  printable c = true -> not_c0 c = true.
Proof. unfold printable, not_c0. intros H. apply andb_prop in H as [H _]. exact H. Qed.

Lemma printable_is_ascii (c : char) : printable c = true -> is_ascii c = true.
Proof.
  unfold printable, is_ascii. intros H. apply andb_prop in H as [_ H].
  apply N.leb_le in H. apply N.ltb_lt. lia.
Qed.

Lemma hex_digit_printable (n : N) : n < 16 -> printable (hex_digit n) = true.
Proof.
  intros H. unfold printable, hex_digit.
  destruct (N.ltb_spec n 10); apply andb_true_intro; split; apply N.leb_le; lia.
Qed.

Lemma u_escape_printable (n : N) : forallb printable (u_escape n) = true.
Proof.
  unfold u_escape, hex4. rewrite forallb_app. apply andb_true_intro. split.
  - vm_compute. reflexivity.
  - cbn [forallb]. rewrite !hex_digit_printable; [reflexivity | ..];
      apply N.mod_upper_bound; discriminate.
Qed.

Lemma short_escape_printable (c : char) (e : str) :
  short_escape c = Some e -> forallb printable e = true.
Proof.
  unfold short_escape.
  repeat (match goal with
          | |- context [if ?b then _ else _] => destruct b
          end; [intros [= <-]; vm_compute; reflexivity |]).
  discriminate.
Qed.

Lemma escape_char_ascii_printable (c : char) :
  forallb printable (escape_char_ascii c) = true.
Proof.
  unfold escape_char_ascii.
  destruct (short_escape c) as [e|] eqn:E;
    [exact (short_escape_printable c e E) |].
  assert (Hesc : forallb printable
            (if c <? 65536 then u_escape c
             else u_escape (N.lor 55296 (N.land (N.shiftr (c - 65536) 10) 1023))
                  ++ u_escape (N.lor 56320 (N.land (c - 65536) 1023))) = true).
  { destruct (c <? 65536); [apply u_escape_printable |].
    rewrite forallb_app, !u_escape_printable. reflexivity. }
  destruct (32 <=? c) eqn:Hlo; [| exact Hesc].
  destruct (c <=? 126) eqn:Hhi; [| exact Hesc].
  cbn [andb forallb]. unfold printable. rewrite Hlo, Hhi. reflexivity.
Qed.

Lemma escape_char_not_c0 (c : char) :
  forallb not_c0 (escape_char c) = true.
Proof.
  unfold escape_char.
  destruct (short_escape c) as [e|] eqn:E.
  - apply (forallb_weaken printable); [apply printable_not_c0 |].
    exact (short_escape_printable c e E).
  - destruct (N.ltb_spec c 32) as [Hlt|Hge].
    + apply (forallb_weaken printable); [apply printable_not_c0 |].
      apply u_escape_printable.
    + cbn [forallb]. unfold not_c0.
      rewrite (proj2 (N.leb_le 32 c) Hge). reflexivity.
Qed.

Lemma encode_str_printable (s : str) :
  forallb printable (encode_str true s) = true.
Proof.
  unfold encode_str. rewrite !forallb_app. cbn [forallb].
  replace (printable 34) with true by reflexivity. cbn [andb].
  rewrite andb_true_r.
  induction s as [|c s IH]; [reflexivity |].
  cbn [map concat]. rewrite forallb_app, escape_char_ascii_printable. exact IH.
Qed.

Lemma encode_str_not_c0 (s : str) :
  forallb not_c0 (encode_str false s) = true.
Proof.
  unfold encode_str. rewrite !forallb_app. cbn [forallb].
  replace (not_c0 34) with true by reflexivity. cbn [andb].
  rewrite andb_true_r.
  induction s as [|c s IH]; [reflexivity |].
  cbn [map concat]. rewrite forallb_app, escape_char_not_c0. exact IH.
Qed.

Lemma string_of_uint_printable (d : Decimal.uint) :
  forallb printable (lit (NilEmpty.string_of_uint d)) = true.
Proof.
  unfold lit.
  induction d as [|d IH|d IH|d IH|d IH|d IH|d IH|d IH|d IH|d IH|d IH];
    [reflexivity | ..];
    cbn [NilEmpty.string_of_uint list_ascii_of_string map forallb];
    rewrite IH; reflexivity.
Qed.

Lemma repr_int_printable (z : Z) : forallb printable (repr_int z) = true.
Proof.
  unfold repr_int, NilZero.string_of_int, NilZero.string_of_uint.
  destruct (Z.to_int z) as [d|d].
  - destruct d; try apply string_of_uint_printable. reflexivity.
  - change (forallb printable (45 :: lit (match d with
                                           | Decimal.Nil => "0"%string
                                           | _ => NilEmpty.string_of_uint d
                                           end)) = true).
    cbn [forallb]. replace (printable 45) with true by reflexivity.
    destruct d; try apply string_of_uint_printable. reflexivity.
Qed.

Section dumps_chars.
Variable ea : bool.
Variable P : char -> bool.
Hypothesis P_printable : forall c, printable c = true -> P c = true.
Hypothesis P_encode : forall s, forallb P (encode_str ea s) = true.

Lemma printable_P (s : str) : forallb printable s = true -> forallb P s = true.
Proof. apply forallb_weaken, P_printable. Qed.

Lemma join_comma_P (parts : list str) :
  Forall (fun s => forallb P s = true) parts ->
  forallb P (join_comma parts) = true.
Proof.
  induction 1 as [|s parts Hs Hparts IH]; [reflexivity |].
  destruct parts as [|s' parts]; [exact Hs |].
  change (forallb P (s ++ lit ", " ++ join_comma (s' :: parts)) = true).
  rewrite !forallb_app, Hs, IH.
  rewrite (printable_P (lit ", ")); reflexivity.
Qed.

(** Every character of a printed value satisfies [P] when the fixed
    tokens, the numbers and the encoded strings do. *)
Lemma dumps_P (v : pyval) :
  floats_all float_printable v = true -> forallb P (dumps ea v) = true.
Proof.
  induction v as [| b | z | f | s | l IH | d IH] using pyval_ind_nested;
    intros Hf.
  - apply printable_P. reflexivity.
  - destruct b; apply printable_P; reflexivity.
  - apply printable_P, repr_int_printable.
  - apply printable_P. exact Hf.
  - apply P_encode.
  - rewrite dumps_list, !forallb_app.
    rewrite (printable_P (lit "[")), (printable_P (lit "]")) by reflexivity.
    rewrite andb_true_r. cbn [andb].
    apply join_comma_P. cbn [floats_all] in Hf.
    induction IH as [|x l Hx Hl IHl]; [constructor |].
    cbn [forallb map] in *. apply andb_prop in Hf as [Hfx Hfl].
    constructor; [apply Hx, Hfx | apply IHl, Hfl].
  - rewrite dumps_dict, !forallb_app.
    rewrite (printable_P (lit "{")), (printable_P (lit "}")) by reflexivity.
    rewrite andb_true_r. cbn [andb].
    apply join_comma_P. cbn [floats_all] in Hf.
    induction IH as [|[k x] d Hx Hd IHd]; [constructor |].
    cbn [forallb map fst snd] in *. apply andb_prop in Hf as [Hfx Hfd].
    constructor; [| apply IHd, Hfd].
    rewrite !forallb_app, P_encode, (Hx Hfx).
    rewrite (printable_P (lit ": ")); reflexivity.
Qed.
End dumps_chars.

Lemma dumps_true_printable (v : pyval) :
  floats_all float_printable v = true ->
  forallb printable (dumps true v) = true.
Proof.
  apply (dumps_P true printable); [auto | apply encode_str_printable].
Qed.

Lemma dumps_false_not_c0 (v : pyval) :
  floats_all float_printable v = true ->
  forallb not_c0 (dumps false v) = true.
Proof.
  apply (dumps_P false not_c0);
    [apply printable_not_c0 | apply encode_str_not_c0].
Qed.

(** ** The ways a run can go *)

Lemma extract_raises_class (r : pyval) (session : option str) :
  chat_response r = false ->
  exists e : exc,
    extract r session = Raise e /\ extraction_error (exc_type e) = true.
Proof.
  intros H.
  destruct r as [| | | | | |d]; try (eexists; split; reflexivity).
  unfold chat_response, extract in *. simpl in *.
  destruct (assoc (lit "choices") d) as [[| | | |[|ch s]|[|c l]|]|];
    simpl in *; try (eexists; split; reflexivity).
  - destruct c as [| | | | | |dc]; simpl in *;
      try (eexists; split; reflexivity).
    destruct (assoc (lit "message") dc) as [[| | | | | |dm]|];
      simpl in *; try (eexists; split; reflexivity);
      destruct (assoc (lit "usage") d) as [[| | | | | |du]|];
      simpl in *; try (eexists; split; reflexivity);
      destruct (assoc (lit "scram_j") d) as [[| | | | | |de]|];
      simpl in *; try (eexists; split; reflexivity); discriminate H.
  - destruct (assoc (lit "usage") d) as [[| | | | | |du]|];
      simpl in *; try (eexists; split; reflexivity);
      destruct (assoc (lit "scram_j") d) as [[| | | | | |de]|];
      simpl in *; try (eexists; split; reflexivity); discriminate H.
Qed.

Lemma main_cases (a : Args) (w : World) :
  (read_prompt a w = [] /\
   main a w =
     {| stdout := EMPTY_PROMPT_LINE ++ [10]; calls := []; status := Exit 0 |}) \/
  (read_prompt a w <> [] /\ url_ok (url w) = false /\
   main a w =
     {| stdout := []; calls := []; status := Uncaught (unknown_url_type w) |}) \/
  (read_prompt a w <> [] /\ url_ok (url w) = true /\
   ((exists r : pyval,
       urlopen w (request_of a w) = Ok r /\ chat_response r = true /\
       encodable (stdout_errors w) (success_line r (session_id a)) = true /\
       main a w =
         {| stdout := success_line r (session_id a) ++ [10];
            calls := [request_of a w];
            status := Exit 0 |}) \/
    (exists (r : pyval) (e : exc),
       urlopen w (request_of a w) = Ok r /\ chat_response r = true /\
       encodable (stdout_errors w) (success_line r (session_id a)) = false /\
       exc_type e = UnicodeEncodeError /\
       main a w =
         {| stdout := []; calls := [request_of a w]; status := Uncaught e |}) \/
    (exists (r : pyval) (e : exc),
       urlopen w (request_of a w) = Ok r /\ chat_response r = false /\
       extraction_error (exc_type e) = true /\
       main a w =
         {| stdout := []; calls := [request_of a w]; status := Uncaught e |}) \/
    (exists (e : exc) (prefix : str),
       urlopen w (request_of a w) = Raise e /\
       isinstance e Exception = true /\
       main a w =
         {| stdout := dumps true (error_event prefix e) ++ [10];
            calls := [request_of a w];
            status := Exit 1 |}) \/
    (exists e : exc,
       urlopen w (request_of a w) = Raise e /\
       isinstance e Exception = false /\
       main a w =
         {| stdout := []; calls := [request_of a w]; status := Uncaught e |}))).
Proof.
  destruct (decide (read_prompt a w = [])) as [Hp|Hp].
  { left. split; [exact Hp | apply main_empty, Hp]. }
  right. destruct (url_ok (url w)) eqn:Hurl.
  2: { left. split; [exact Hp |]. split; [reflexivity |].
       apply main_no_type; assumption. }
  right. split; [exact Hp |]. split; [reflexivity |].
  pose proof (main_opened a w Hp Hurl) as Hmain.
  destruct (urlopen w (request_of a w)) as [r|e] eqn:Hr.
  - destruct (chat_response r) eqn:Hshape.
    + rewrite (extract_chat_response r (session_id a) Hshape) in Hmain.
      change (main a w = emit w (success_line r (session_id a)) [request_of a w] 0)
        in Hmain.
      destruct (encodable (stdout_errors w) (success_line r (session_id a)))
        eqn:Henc.
      * left. exists r.
        split; [reflexivity |]. split; [exact Hshape |]. split; [exact Henc |].
        rewrite Hmain. apply emit_encodable, Henc.
      * right. left.
        destruct (emit_unencodable w _ [request_of a w] 0 Henc) as (e & Hc & He).
        exists r, e.
        split; [reflexivity |]. split; [exact Hshape |]. split; [exact Henc |].
        split; [exact Hc |]. rewrite Hmain. exact He.
    + right. right. left.
      destruct (extract_raises_class r (session_id a) Hshape) as (e & He & Hc).
      exists r, e.
      split; [reflexivity |]. split; [exact Hshape |]. split; [exact Hc |].
      rewrite Hmain, He. reflexivity.
  - do 3 right.
    destruct (isinstance e URLError) eqn:He.
    + left. exists e, (lit "SCRAM-J connection error: ").
      split; [reflexivity |].
      split; [apply URLError_is_Exception, He |].
      rewrite Hmain. apply emit_error_line.
    + destruct (isinstance e Exception) eqn:Hexc.
      * left. exists e, (lit "SCRAM-J error: ").
        split; [reflexivity |]. split; [exact Hexc |].
        rewrite Hmain. apply emit_error_line.
      * right. exists e.
        split; [reflexivity |]. split; [exact Hexc | exact Hmain].
Qed.


(** ** How a run ends *)



(** ** What leaves [main] uncaught *)

(** C1 in general, for a URL with a type: a decoded value that is not of
    the expected shape makes the extraction raise an AttributeError,
    IndexError, KeyError or TypeError after the request was made, and an
    exception of the [try] body that is no [Exception] passes both [except]
    clauses; in both cases nothing is printed. *)
Theorem uncaught_exceptions (a : Args) (w : World) :
  read_prompt a w <> [] ->
  url_ok (url w) = true ->
  (forall r : pyval,
     urlopen w (request_of a w) = Ok r -> chat_response r = false ->
     exists e : exc,
       extraction_error (exc_type e) = true /\
       main a w =
         {| stdout := []; calls := [request_of a w]; status := Uncaught e |}) /\
  (forall e : exc,
     urlopen w (request_of a w) = Raise e -> isinstance e Exception = false ->
     main a w =
       {| stdout := []; calls := [request_of a w]; status := Uncaught e |}).
Proof.
  intros Hp Hok. pose proof (main_opened a w Hp Hok) as Hmain. split.
  - intros r Hr Hshape.
    destruct (extract_raises_class r (session_id a) Hshape) as (e & He & Hc).
    exists e. split; [exact Hc |]. rewrite Hmain, Hr, He. reflexivity.
  - intros e Hr Hexc. rewrite Hmain, Hr, Hexc.
    destruct (isinstance e URLError) eqn:Hurl; [| reflexivity].
    apply URLError_is_Exception in Hurl. congruence.
Qed.

Lemma uncaught_exceptions_witness :
  (exists e : exc,
     extraction_error (exc_type e) = true /\
     main (args_of (Some (lit "hello")) None)
          (world_of [] (Ok (PDict [(lit "usage", PInt 7)]))) =
       {| stdout := [];
          calls := [request_of (args_of (Some (lit "hello")) None)
                      (world_of [] (Ok (PDict [(lit "usage", PInt 7)])))];
          status := Uncaught e |}) /\
  main (args_of (Some (lit "hello")) None)
       (world_of [] (Raise (Exc KeyboardInterrupt []))) =
    {| stdout := [];
       calls := [request_of (args_of (Some (lit "hello")) None)
                   (world_of [] (Raise (Exc KeyboardInterrupt [])))];
       status := Uncaught (Exc KeyboardInterrupt []) |}.
Proof.
  split.
  - apply (proj1 (uncaught_exceptions (args_of (Some (lit "hello")) None)
                    (world_of [] (Ok (PDict [(lit "usage", PInt 7)])))
                    ltac:(vm_compute; discriminate)
                    ltac:(vm_compute; reflexivity))
             (PDict [(lit "usage", PInt 7)]));
      [reflexivity | vm_compute; reflexivity].
  - apply (proj2 (uncaught_exceptions (args_of (Some (lit "hello")) None)
                    (world_of [] (Raise (Exc KeyboardInterrupt [])))
                    ltac:(vm_compute; discriminate)
                    ltac:(vm_compute; reflexivity))
             (Exc KeyboardInterrupt []));
      [reflexivity | vm_compute; reflexivity].
Defined.

(** ** One call at most *)



(** ** The printed line *)

Lemma floats_all_assoc (P : pyfloat -> bool) (k : str)
    (d : list (str * pyval)) (x : pyval) :
  assoc k d = Some x ->
  floats_all P (PDict d) = true -> floats_all P x = true.
Proof.
  cbn [floats_all]. induction d as [|[k' v] d IH]; [discriminate |].
  cbn [assoc forallb]. intros Hk H. apply andb_prop in H as [Hv Hd].
  destruct (bool_decide (k' = k)).
  - injection Hk as <-. exact Hv.
  - apply IH; assumption.
Qed.

Lemma floats_all_field (P : pyfloat -> bool) (k : str) (v x : pyval) :
  field k v = Some x -> floats_all P v = true -> floats_all P x = true.
Proof.
  destruct v; try discriminate. cbn [field]. apply floats_all_assoc.
Qed.

Lemma floats_all_default (P : pyfloat -> bool) (dflt : pyval)
    (o : option pyval) :
  (forall x, o = Some x -> floats_all P x = true) ->
  floats_all P dflt = true ->
  floats_all P (default dflt o) = true.
Proof. intros Ho Hd. destruct o as [x|]; [apply Ho; reflexivity | exact Hd]. Qed.

Lemma floats_all_first_choice (P : pyfloat -> bool) (r c : pyval) :
  first_choice r = Some c -> floats_all P r = true -> floats_all P c = true.
Proof.
  unfold first_choice.
  destruct (field (lit "choices") r) as [[| | | | |[|c' l]|]|] eqn:E;
    try discriminate.
  intros [= <-] Hr. pose proof (floats_all_field P _ _ _ E Hr) as Hl.
  cbn [floats_all forallb] in Hl. apply andb_prop in Hl as [Hc _]. exact Hc.
Qed.

Lemma floats_all_content (P : pyfloat -> bool) (r x : pyval) :
  content_of r = Some x -> floats_all P r = true -> floats_all P x = true.
Proof.
  unfold content_of. intros H Hr.
  destruct (first_choice r) as [c|] eqn:Ec; [| discriminate].
  cbn in H. destruct (field (lit "message") c) as [m|] eqn:Em; [| discriminate].
  cbn in H.
  eapply floats_all_field; [exact H |].
  eapply floats_all_field; [exact Em |].
  eapply floats_all_first_choice; eassumption.
Qed.

Lemma floats_all_usage (P : pyfloat -> bool) (k : str) (r x : pyval) :
  usage_of k r = Some x -> floats_all P r = true -> floats_all P x = true.
Proof.
  unfold usage_of. intros H Hr.
  destruct (field (lit "usage") r) as [u|] eqn:Eu; [| discriminate].
  cbn in H.
  eapply floats_all_field; [exact H |].
  eapply floats_all_field; eassumption.
Qed.

Lemma floats_all_thread_id (P : pyfloat -> bool) (r : pyval)
    (session : option str) :
  floats_all P r = true -> floats_all P (thread_id_of r session) = true.
Proof.
  intros Hr. unfold thread_id_of, trace_id_of.
  destruct (field (lit "scram_j") r) as [e|] eqn:Ee; [| reflexivity].
  cbn. destruct (field (lit "trace_id") e) as [t|] eqn:Et; [| reflexivity].
  destruct (truthy t); [| reflexivity].
  eapply floats_all_field; [exact Et |].
  eapply floats_all_field; eassumption.
Qed.

Lemma success_line_not_c0 (r : pyval) (session : option str) :
  floats_all float_printable r = true ->
  forallb not_c0 (success_line r session) = true.
Proof.
  intros Hfr. unfold success_line. apply dumps_false_not_c0.
  unfold output_event. cbn [floats_all forallb].
  rewrite (floats_all_thread_id _ r session Hfr).
  rewrite (floats_all_default float_printable (PStr (lit "(no response)"))
             (content_of r));
    [| intros x Hx; eapply floats_all_content; eassumption | reflexivity].
  rewrite !(floats_all_default float_printable (PInt 0));
    try reflexivity;
    intros x Hx; eapply floats_all_usage; eassumption.
Qed.

(** The positive half of C1: whatever a run prints is one line.  Standard
    output is either empty, when an exception left [main], or a text with
    no character below U+0020, so with no newline, carriage return or tab in
    it, followed by the one newline.  The floats of the response are taken
    to print as Python prints floats. *)
Theorem stdout_is_one_line (a : Args) (w : World) :
  (forall r : pyval,
     urlopen w (request_of a w) = Ok r ->
     floats_all float_printable r = true) ->
  stdout (main a w) = [] \/
  exists line : str,
    stdout (main a w) = line ++ [10] /\ forallb not_c0 line = true.
Proof.
  intros Hfloats.
  destruct (main_cases a w) as
    [[Hp Hmain] | [(Hp & Hurl & Hmain) | (Hp & Hurl &
      [(r & Hr & Hs & Henc & Hmain) | [(r & e & Hr & Hs & Henc & Hc & Hmain)
      | [(r & e & Hr & Hs & Hc & Hmain)
      | [(e & prefix & Hr & Hexc & Hmain) | (e & Hr & Hexc & Hmain)]]]])]];
    rewrite Hmain; cbn [stdout]; auto; right.
  - exists EMPTY_PROMPT_LINE. split; [reflexivity | vm_compute; reflexivity].
  - eexists. split; [reflexivity |].
    apply success_line_not_c0, (Hfloats r Hr).
  - eexists. split; [reflexivity |].
    apply (forallb_weaken printable); [apply printable_not_c0 |].
    apply dumps_true_printable. reflexivity.
Qed.

Lemma stdout_is_one_line_witness :
  exists line : str,
    stdout (main (args_of (Some (lit "hello")) None)
                 (world_of [] (Ok (sample_response (lit "abc" ++ [10; 233]))))) =
      line ++ [10] /\
    forallb not_c0 line = true.
Proof.
  destruct (stdout_is_one_line
              (args_of (Some (lit "hello")) None)
              (world_of [] (Ok (sample_response (lit "abc" ++ [10; 233])))))
    as [Hempty | Hline].
  - intros r [= <-]. vm_compute. reflexivity.
  - vm_compute in Hempty. discriminate Hempty.
  - exact Hline.
Defined.

(** ** The body of the request *)

Lemma encode_utf8_ascii (s : str) :
  forallb is_ascii s = true -> encode_utf8 s = Some s.
Proof.
  induction s as [|c s IH]; [reflexivity |].
  cbn [forallb encode_utf8]. intros H. apply andb_prop in H as [Hc Hs].
  unfold utf8_char. unfold is_ascii in Hc. rewrite Hc, (IH Hs). reflexivity.
Qed.

Lemma build_messages_no_float (P : pyfloat -> bool) (m : str)
    (system : option str) (p : str) :
  forallb (floats_all P) (build_messages m system p) = true.
Proof.
  unfold build_messages.
  destruct (truthy (of_opt system)); [destruct system |]; reflexivity.
Qed.

(** Line 60 cannot fail: the payload is printed with [ensure_ascii] on, so
    whatever the prompt, the system prompt and the model hold, also lone
    surrogates and control characters, the body of every request is
    printable ASCII and its UTF-8 encoding is the same sequence, one byte a
    character. *)
Theorem payload_is_ascii (a : Args) (w : World) (req : Request) :
  req ∈ calls (main a w) ->
  forallb printable (data req) = true /\
  encode_utf8 (data req) = Some (data req).
Proof.
  rewrite main_calls. case_bool_decide as Hp.
  - intros H. apply elem_of_nil in H. contradiction.
  - destruct (url_ok (url w));
      [| intros H; apply elem_of_nil in H; contradiction].
    intros ->%list_elem_of_singleton.
    assert (Hprint : forallb printable (data (request_of a w)) = true).
    { unfold request_of, build_request, payload. cbn [data].
      apply dumps_true_printable. cbn [floats_all forallb].
      rewrite build_messages_no_float. reflexivity. }
    split; [exact Hprint |].
    apply encode_utf8_ascii.
    apply (forallb_weaken printable); [apply printable_is_ascii | exact Hprint].
Qed.

Lemma payload_is_ascii_witness :
  encode_utf8
    (data (request_of (args_of (Some [55357; 233; 10]) None)
             (world_of [] (Ok (PDict []))))) =
  Some (qlit "{'model': 'dual-9b', 'messages': [{'role': 'user', 'content': '\ud83d\u00e9\n'}]}").
Proof.
  destruct (payload_is_ascii
              (args_of (Some [55357; 233; 10]) None)
              (world_of [] (Ok (PDict [])))
              (request_of (args_of (Some [55357; 233; 10]) None)
                 (world_of [] (Ok (PDict [])))))
    as [_ Henc].
  - vm_compute. apply list_elem_of_here.
  - rewrite Henc. vm_compute. reflexivity.
Defined.

(** ** The prompt read from standard input *)

Lemma lstrip_split (s : str) :
  exists pre : str, s = pre ++ lstrip s /\ forallb isspace pre = true.
Proof.
  induction s as [|c s (pre & Hs & Hpre)]; [exists []; split; reflexivity |].
  cbn [lstrip]. destruct (isspace c) eqn:Hc.
  - exists (c :: pre). cbn [forallb app]. rewrite Hc, Hpre, <- Hs.
    split; reflexivity.
  - exists []. split; reflexivity.
Qed.

Lemma lstrip_first (s t : str) (c : char) :
  lstrip s = c :: t -> isspace c = false.
Proof.
  induction s as [|c' s IH]; [discriminate |].
  cbn [lstrip]. destruct (isspace c') eqn:Hc; [exact IH |].
  intros [= <- _]. exact Hc.
Qed.

Lemma lstrip_snoc (l : str) (c : char) :
  isspace c = false -> lstrip (l ++ [c]) = lstrip l ++ [c].
Proof.
  intros Hc. induction l as [|c' l IH].
  - cbn [app lstrip]. rewrite Hc. reflexivity.
  - cbn [app lstrip]. destruct (isspace c'); [exact IH | reflexivity].
Qed.

Lemma forallb_rev (P : char -> bool) (l : str) :
  forallb P l = true -> forallb P (rev l) = true.
Proof.
  rewrite !forallb_forall. intros H x Hx. apply H, in_rev, Hx.
Qed.

Lemma rstrip_split (s : str) :
  exists post : str, s = rstrip s ++ post /\ forallb isspace post = true.
Proof.
  destruct (lstrip_split (rev s)) as (pre & Hs & Hpre).
  exists (rev pre). split; [| apply forallb_rev, Hpre].
  unfold rstrip. rewrite <- rev_app_distr, <- Hs, rev_involutive. reflexivity.
Qed.

Lemma rstrip_last (s t : str) (c : char) :
  rstrip s = t ++ [c] -> isspace c = false.
Proof.
  unfold rstrip. intros H.
  apply (f_equal (@rev N)) in H.
  rewrite rev_involutive, rev_app_distr in H. cbn [rev app] in H.
  exact (lstrip_first _ _ _ H).
Qed.

Lemma rstrip_cons (t : str) (c : char) :
  isspace c = false -> rstrip (c :: t) = c :: rstrip t.
Proof.
  intros Hc. unfold rstrip. cbn [rev].
  rewrite (lstrip_snoc _ _ Hc), rev_app_distr. reflexivity.
Qed.

(** [str.strip] removes whitespace at the two ends and nothing else. *)
Lemma strip_spec (s : str) :
  (exists pre post : str,
     s = pre ++ strip s ++ post /\
     forallb isspace pre = true /\ forallb isspace post = true) /\
  (forall (c : char) (t : str), strip s = c :: t -> isspace c = false) /\
  (forall (t : str) (c : char), strip s = t ++ [c] -> isspace c = false).
Proof.
  unfold strip. split; [| split].
  - destruct (lstrip_split s) as (pre & Hs & Hpre).
    destruct (rstrip_split (lstrip s)) as (post & Ht & Hpost).
    exists pre, post. rewrite <- Ht. auto.
  - intros c t H. destruct (lstrip s) as [|c' t'] eqn:E; [discriminate H |].
    pose proof (lstrip_first _ _ _ E) as Hc'.
    rewrite (rstrip_cons _ _ Hc') in H. injection H as <- _. exact Hc'.
  - intros t c. apply rstrip_last.
Qed.

(** When the positional prompt is absent or empty, the prompt is standard
    input without the whitespace at its two ends: what is left out on either
    side is whitespace only, the text in between is kept as it is, and the
    prompt neither starts nor ends with a whitespace character. *)
Theorem stdin_prompt_is_trimmed (a : Args) (w : World) :
  prompt a = None \/ prompt a = Some [] ->
  (exists pre post : str,
     stdin w = pre ++ read_prompt a w ++ post /\
     forallb isspace pre = true /\ forallb isspace post = true) /\
  (forall (c : char) (t : str), read_prompt a w = c :: t -> isspace c = false) /\
  (forall (t : str) (c : char), read_prompt a w = t ++ [c] -> isspace c = false).
Proof.
  intros Hp. rewrite (read_prompt_stdin a w Hp). apply strip_spec.
Qed.

Lemma stdin_prompt_is_trimmed_witness :
  read_prompt (args_of None None)
    (world_of ([9; 160] ++ lit "a  b" ++ [10; 12288]) (Ok (PDict []))) = lit "a  b" /\
  exists pre post : str,
    [9; 160] ++ lit "a  b" ++ [10; 12288] = pre ++ lit "a  b" ++ post /\
    forallb isspace pre = true /\ forallb isspace post = true.
Proof.
  assert (E : read_prompt (args_of None None)
                (world_of ([9; 160] ++ lit "a  b" ++ [10; 12288]) (Ok (PDict [])))
              = lit "a  b") by (vm_compute; reflexivity).
  split; [exact E |].
  rewrite <- E.
  exact (proj1 (stdin_prompt_is_trimmed (args_of None None)
                  (world_of ([9; 160] ++ lit "a  b" ++ [10; 12288]) (Ok (PDict [])))
                  (or_introl eq_refl))).
Defined.

(** ** The model that is sent and its budget *)

Ltac elem_of_cases H :=
  repeat (apply elem_of_cons in H as [-> | H]);
  try (apply elem_of_nil in H; contradiction).

Ltac not_in_literals :=
  rewrite ?not_elem_of_cons; repeat split;
  try apply not_elem_of_nil; try (vm_compute; discriminate).

Lemma resolve_listed_or_same (alias : str) :
  alias ∈ [lit "default"; lit "dual"; lit "scram-j"; lit "direct"; lit "nemotron"]
  \/ resolve alias = alias /\ alias <> lit "default" /\ alias <> lit "dual" /\
     alias <> lit "scram-j" /\ alias <> lit "direct" /\ alias <> lit "nemotron".
Proof.
  destruct (decide (alias ∈ [lit "default"; lit "dual"; lit "scram-j";
                              lit "direct"; lit "nemotron"])) as [Hin|Hout];
    [left; exact Hin | right].
  split; [apply resolve_unlisted, Hout |].
  rewrite !not_elem_of_cons in Hout. tauto.
Qed.

(** The model that reaches the backend is never one of the pure aliases
    default, dual, direct and nemotron, and resolving it again changes
    nothing. *)
Theorem resolved_model_is_no_alias (alias : str) :
  (resolve alias ∉ [lit "default"; lit "dual"; lit "direct"; lit "nemotron"]) /\
  resolve (resolve alias) = resolve alias.
Proof.
  destruct (resolve_listed_or_same alias) as [Hin | (E & H1 & H2 & H3 & H4 & H5)].
  - elem_of_cases Hin; (split; [not_in_literals | vm_compute; reflexivity]).
  - rewrite !E. split; [| reflexivity].
    rewrite !not_elem_of_cons. repeat split; try assumption.
    apply not_elem_of_nil.
Qed.

(** The budget follows the resolved model, so it is 4000 exactly for the
    aliases default, dual and nemotron and for the identifiers dual-9b and
    nemotron-direct given as they are; every other alias, known or not, has
    800. *)
Theorem budget_by_alias (alias : str) :
  (alias ∈ [lit "default"; lit "dual"; lit "nemotron"; lit "dual-9b";
            lit "nemotron-direct"] ->
   max_sp (resolve alias) = 4000%Z) /\
  (alias ∉ [lit "default"; lit "dual"; lit "nemotron"; lit "dual-9b";
            lit "nemotron-direct"] ->
   max_sp (resolve alias) = 800%Z).
Proof.
  split.
  - intros Hin. elem_of_cases Hin; vm_compute; reflexivity.
  - intros Hout. rewrite !not_elem_of_cons in Hout.
    destruct Hout as (N1 & N2 & N3 & N4 & N5 & _).
    destruct (resolve_listed_or_same alias) as [Hin | (E & _)].
    + elem_of_cases Hin; try contradiction; vm_compute; reflexivity.
    + rewrite E. destruct (max_sp_cases alias) as [[[E'|E'] _]|[_ E']];
        [contradiction | contradiction | exact E'].
Qed.

Lemma budget_by_alias_witness :
  max_sp (resolve (lit "nemotron")) = 4000%Z /\
  max_sp (resolve (lit "direct")) = 800%Z /\
  max_sp (resolve (lit "Dual-9B")) = 800%Z.
Proof.
  split; [| split].
  - apply (proj1 (budget_by_alias (lit "nemotron"))).
    do 2 apply list_elem_of_further. apply list_elem_of_here.
  - apply (proj2 (budget_by_alias (lit "direct"))). not_in_literals.
  - apply (proj2 (budget_by_alias (lit "Dual-9B"))). not_in_literals.
Defined.

(** ** The cut at the budget *)

(** The comparison of line 51 is strict: a system prompt of at most the
    budget, also of exactly the budget, enters the system message whole;
    in general the content has the smaller of the two lengths, and cutting
    what was cut changes nothing. *)
Theorem truncation_boundary (m s : str) :
  ((len s <= max_sp m)%Z -> s <> [] ->
   forall p : str,
     build_messages m (Some s) p =
       [message (lit "system") s; message (lit "user") p]) /\
  len (truncate m s) = Z.min (len s) (max_sp m) /\
  truncate m (truncate m s) = truncate m s.
Proof.
  split; [| split].
  - intros Hle Hne p.
    rewrite (build_messages_system m s p Hne), (truncate_short m s Hle).
    reflexivity.
  - pose proof (max_sp_pos m) as Hpos.
    destruct (Z_gt_le_dec (len s) (max_sp m)) as [Hgt|Hle].
    + rewrite (truncate_long m s Hgt). unfold len in *.
      rewrite length_take. lia.
    + rewrite (truncate_short m s Hle). lia.
  - apply truncate_short, truncate_len.
Qed.

Lemma truncation_boundary_witness :
  build_messages (lit "scram-j") (Some (repeat 97 800)) (lit "hi") =
    [message (lit "system") (repeat 97 800); message (lit "user") (lit "hi")].
Proof.
  apply (proj1 (truncation_boundary (lit "scram-j") (repeat 97 800))).
  - vm_compute. discriminate.
  - vm_compute. discriminate.
Defined.

(** ** The argument before standard input *)

(** A positional prompt that is not empty is the prompt, and standard
    input is not looked at: the run is the same whatever it holds. *)
Theorem argument_overrides_stdin (a : Args) (w : World) (p input : str) :
  prompt a = Some p -> p <> [] ->
  read_prompt a w = p /\ main a (with_stdin w input) = main a w.
Proof.
  intros Hp Hne. split; [apply read_prompt_arg; assumption |].
  apply (truthy_str p) in Hne.
  unfold main, read_prompt, with_stdin. cbn [stdin]. rewrite Hp, Hne.
  reflexivity.
Qed.

Lemma argument_overrides_stdin_witness :
  main (args_of (Some (lit "hello")) None)
       (with_stdin (world_of [] (Ok (PDict []))) (lit "other")) =
  main (args_of (Some (lit "hello")) None) (world_of [] (Ok (PDict []))).
Proof.
  apply (proj2 (argument_overrides_stdin (args_of (Some (lit "hello")) None)
                  (world_of [] (Ok (PDict []))) (lit "hello") (lit "other")
                  eq_refl ltac:(vm_compute; discriminate))).
Defined.

(** ** The two lines on the wire *)

Lemma escape_char_verbatim (c : char) : verbatim c = true -> escape_char c = [c].
Proof.
  unfold verbatim. intros H.
  apply andb_prop in H as [H H92]. apply andb_prop in H as [H32 H34].
  apply N.leb_le in H32. apply negb_true_iff, N.eqb_neq in H34, H92.
  unfold escape_char, short_escape.
  repeat (match goal with
          | |- context [?x =? ?y] =>
              destruct (N.eqb_spec x y) as [?|_]; [lia |]
          end).
  destruct (N.ltb_spec c 32); [lia | reflexivity].
Qed.

Lemma encode_str_verbatim (s : str) :
  forallb verbatim s = true -> encode_str false s = [34] ++ s ++ [34].
Proof.
  intros H. unfold encode_str. do 2 f_equal.
  induction s as [|c s IH]; [reflexivity |].
  cbn [forallb] in H. apply andb_prop in H as [Hc Hs].
  cbn [map concat]. rewrite (escape_char_verbatim c Hc), (IH Hs). reflexivity.
Qed.

(** The line of a successful run, character by character: the three fields
    in the order thread_id, item, usage, with a space after each colon and
    comma, and the text of the response between its quotes exactly as the
    backend gave it when it holds no control character below U+0020, double
    quote or backslash: accents, CJK and emoji are not escaped.  That line
    and a newline are what the run prints, when standard output can encode
    it. *)
Theorem success_line_layout (a : Args) (w : World) (r : pyval) (s : str) :
  chat_response r = true ->
  content_of r = Some (PStr s) ->
  forallb verbatim s = true ->
  let line :=
    qlit "{'thread_id': "
    ++ dumps false (thread_id_of r (session_id a))
    ++ qlit ", 'item': {'text': '" ++ s
    ++ qlit "', 'type': 'message'}, 'usage': {'input_tokens': "
    ++ dumps false (default (PInt 0) (usage_of (lit "prompt_tokens") r))
    ++ qlit ", 'output_tokens': "
    ++ dumps false (default (PInt 0) (usage_of (lit "completion_tokens") r))
    ++ qlit ", 'total_tokens': "
    ++ dumps false (default (PInt 0) (usage_of (lit "total_tokens") r))
    ++ qlit "}}" in
  (exists event : pyval,
     extract r (session_id a) = Ok event /\ dumps false event = line) /\
  (read_prompt a w <> [] ->
   url_ok (url w) = true ->
   urlopen w (request_of a w) = Ok r ->
   encodable (stdout_errors w) line = true ->
   main a w =
     {| stdout := line ++ [10]; calls := [request_of a w]; status := Exit 0 |}).
Proof.
  intros Hshape Hcontent Hs line.
  assert (Hline : success_line r (session_id a) = line).
  { unfold success_line, line. rewrite Hcontent. cbn [default from_option id].
    generalize (thread_id_of r (session_id a)).
    generalize (default (PInt 0) (usage_of (lit "prompt_tokens") r)).
    generalize (default (PInt 0) (usage_of (lit "completion_tokens") r)).
    generalize (default (PInt 0) (usage_of (lit "total_tokens") r)).
    intros tot out inp tid.
    unfold output_event.
    rewrite dumps_dict. cbn [map fst snd join_comma].
    rewrite !dumps_dict. cbn [map fst snd join_comma].
    change (dumps false (PStr s)) with (encode_str false s).
    rewrite (encode_str_verbatim s Hs).
    generalize (dumps false tid), (dumps false inp), (dumps false out),
      (dumps false tot).
    intros x1 x2 x3 x4. repeat rewrite <- app_assoc. vm_compute. reflexivity. }
  split.
  - destruct (success_line_extracted r (session_id a) Hshape) as (event & He & Hd).
    exists event. rewrite Hd, Hline. auto.
  - intros Hp Hurl Hr Henc.
    rewrite (main_success a w r Hp Hurl Hr Hshape), Hline.
    apply emit_encodable, Henc.
Qed.

Lemma success_line_layout_witness :
  stdout (main (args_of (Some (lit "hello")) None)
               (world_of [] (Ok (PDict
                  [(lit "choices",
                    PList [PDict [(lit "message",
                                   PDict [(lit "content",
                                           PStr [26085; 26412; 128512])])]])])))) =
    qlit "{'thread_id': '', 'item': {'text': '" ++ [26085; 26412; 128512]
    ++ qlit "', 'type': 'message'}, 'usage': {'input_tokens': 0, 'output_tokens': 0, 'total_tokens': 0}}"
    ++ [10].
Proof.
  destruct (success_line_layout
             (args_of (Some (lit "hello")) None)
             (world_of [] (Ok (PDict
                [(lit "choices",
                  PList [PDict [(lit "message",
                                 PDict [(lit "content",
                                         PStr [26085; 26412; 128512])])]])])))
             (PDict
                [(lit "choices",
                  PList [PDict [(lit "message",
                                 PDict [(lit "content",
                                         PStr [26085; 26412; 128512])])]])])
             [26085; 26412; 128512]
             ltac:(vm_compute; reflexivity) ltac:(vm_compute; reflexivity)
             ltac:(vm_compute; reflexivity)) as [_ Hmain].
  rewrite Hmain.
  - vm_compute. reflexivity.
  - vm_compute. discriminate.
  - vm_compute. reflexivity.
  - reflexivity.
  - vm_compute. reflexivity.
Defined.

Lemma rpartition_hash_None (u : str) : 35 ∉ u -> rpartition_hash u = None.
Proof.
  induction u as [|c u IH]; [reflexivity |].
  intros H. apply not_elem_of_cons in H as [Hc Hu].
  cbn [rpartition_hash]. rewrite (IH Hu).
  destruct (N.eqb_spec c 35); [congruence | reflexivity].
Qed.

Lemma Request_full_url_plain (u : str) :
  unwrap u = u -> 35 ∉ u -> Request_full_url u = u.
Proof.
  intros Hu Hhash. unfold Request_full_url, splittag.
  rewrite Hu, (rpartition_hash_None u Hhash). reflexivity.
Qed.

(** The request of a run, as it goes out.  A request is opened only for a
    URL with a type.  The URL is http://spark:9000 followed by the path when
    SCRAM_J_ENDPOINT is not set, and the value of the variable followed by
    the path, with no slash removed or added, when that value needs no
    unwrapping (no whitespace around it, no angle brackets, no leading URL:)
    and holds no number sign; the method, the one header and the timeout
    are fixed; and the body is the model and the messages in this layout,
    strings escaped to ASCII, with the system message only for a system
    prompt that is not empty. *)
Theorem request_wire_format (a : Args) (w : World) (req : Request) :
  req ∈ calls (main a w) ->
  url_ok (url w) = true /\
  (environ w !! lit "SCRAM_J_ENDPOINT" = None ->
   full_url req = lit "http://spark:9000/v1/chat/completions") /\
  (forall u : str, environ w !! lit "SCRAM_J_ENDPOINT" = Some u ->
   unwrap (u ++ lit "/v1/chat/completions") = u ++ lit "/v1/chat/completions" ->
   35 ∉ u ->
   full_url req = u ++ lit "/v1/chat/completions") /\
  method req = lit "POST" /\
  headers req = [(lit "Content-Type", lit "application/json")] /\
  timeout req = 120%Z /\
  (append_system_prompt a = None \/ append_system_prompt a = Some [] ->
   data req =
     qlit "{'model': " ++ encode_str true (resolve (model a))
     ++ qlit ", 'messages': [{'role': 'user', 'content': "
     ++ encode_str true (read_prompt a w) ++ qlit "}]}") /\
  (forall sp : str, append_system_prompt a = Some sp -> sp <> [] ->
   data req =
     qlit "{'model': " ++ encode_str true (resolve (model a))
     ++ qlit ", 'messages': [{'role': 'system', 'content': "
     ++ encode_str true (truncate (resolve (model a)) sp)
     ++ qlit "}, {'role': 'user', 'content': "
     ++ encode_str true (read_prompt a w) ++ qlit "}]}").
Proof.
  rewrite main_calls. case_bool_decide as Hp.
  { intros H. apply elem_of_nil in H. contradiction. }
  destruct (url_ok (url w)) eqn:Hok;
    [| intros H; apply elem_of_nil in H; contradiction].
  intros ->%list_elem_of_singleton.
  split; [reflexivity |].
  unfold request_of, build_request, url, ENDPOINT.
  cbn [full_url method headers timeout data].
  split; [intros ->; vm_compute; reflexivity |].
  split.
  { intros u -> Hu Hhash. cbn [default from_option id].
    apply Request_full_url_plain; [exact Hu |].
    rewrite not_elem_of_app. split; [exact Hhash |].
    apply (bool_decide_unpack _). vm_compute. exact I. }
  do 3 (split; [reflexivity |]).
  split.
  - intros Hsys.
    rewrite (build_messages_no_system _ _ _ Hsys).
    unfold payload, message.
    rewrite dumps_dict. cbn [map fst snd join_comma].
    rewrite dumps_list. cbn [map join_comma].
    rewrite dumps_dict. cbn [map fst snd join_comma dumps].
    generalize (encode_str true (resolve (model a))),
      (encode_str true (read_prompt a w)).
    intros x1 x2. repeat rewrite <- app_assoc. vm_compute. reflexivity.
  - intros sp Hsys Hne. rewrite Hsys.
    rewrite (build_messages_system _ _ _ Hne).
    unfold payload, message.
    rewrite dumps_dict. cbn [map fst snd join_comma].
    rewrite dumps_list. cbn [map join_comma].
    rewrite !dumps_dict. cbn [map fst snd join_comma dumps].
    generalize (encode_str true (resolve (model a))),
      (encode_str true (read_prompt a w)),
      (encode_str true (truncate (resolve (model a)) sp)).
    intros x1 x2 x3. repeat rewrite <- app_assoc. vm_compute. reflexivity.
Qed.

Lemma request_wire_format_witness :
  map (fun req => (full_url req, data req))
    (calls (main {| model := lit "nemotron"; session_id := None;
                    append_system_prompt := Some (lit "be brief");
                    prompt := Some (lit "hello") |}
                 (with_endpoint (world_of [] (Ok (PDict []))) (lit "http://h:1/")))) =
  [(lit "http://h:1//v1/chat/completions",
    qlit "{'model': 'nemotron-direct', 'messages': [{'role': 'system', 'content': 'be brief'}, {'role': 'user', 'content': 'hello'}]}")].
Proof.
  pose (a := {| model := lit "nemotron"; session_id := None;
                append_system_prompt := Some (lit "be brief");
                prompt := Some (lit "hello") |}).
  pose (w := with_endpoint (world_of [] (Ok (PDict []))) (lit "http://h:1/")).
  assert (Hcalls : calls (main a w) = [request_of a w])
    by (vm_compute; reflexivity).
  destruct (request_wire_format a w (request_of a w))
    as (_ & _ & Hurl & _ & _ & _ & _ & Hdata).
  - rewrite Hcalls. apply list_elem_of_here.
  - change (map (fun req => (full_url req, data req)) (calls (main a w)) =
              [(lit "http://h:1//v1/chat/completions",
                qlit "{'model': 'nemotron-direct', 'messages': [{'role': 'system', 'content': 'be brief'}, {'role': 'user', 'content': 'hello'}]}")]).
    rewrite Hcalls. cbn [map].
    rewrite (Hurl (lit "http://h:1/") ltac:(vm_compute; reflexivity)
               ltac:(vm_compute; reflexivity)
               ltac:(apply (bool_decide_unpack _); vm_compute; exact I)).
    rewrite (Hdata (lit "be brief") eq_refl ltac:(vm_compute; discriminate)).
    vm_compute. reflexivity.
Defined.

(** ** The line of a failure *)

(** On both failure branches the line is printable ASCII: whatever the
    detail of the exception holds, every character of it outside the range
    from space to tilde goes out escaped. *)
Theorem failure_line_is_printable (a : Args) (w : World) (e : exc) :
  read_prompt a w <> [] ->
  url_ok (url w) = true ->
  urlopen w (request_of a w) = Raise e ->
  isinstance e Exception = true ->
  exists line : str,
    stdout (main a w) = line ++ [10] /\ forallb printable line = true.
Proof.
  intros Hp Hurl Hr Hexc. rewrite (main_opened a w Hp Hurl), Hr, Hexc.
  destruct (isinstance e URLError); rewrite emit_error_line; cbn [stdout];
    (eexists; split; [reflexivity | apply dumps_true_printable; reflexivity]).
Qed.

Lemma failure_line_is_printable_witness :
  exists line : str,
    stdout (main (args_of (Some (lit "hello")) None)
                 (world_of [] (Raise (Exc OSError [26085; 10; 127])))) =
      line ++ [10] /\
    forallb printable line = true.
Proof.
  apply (failure_line_is_printable
           (args_of (Some (lit "hello")) None)
           (world_of [] (Raise (Exc OSError [26085; 10; 127])))
           (Exc OSError [26085; 10; 127])).
  - vm_compute. discriminate.
  - vm_compute. reflexivity.
  - reflexivity.
  - vm_compute. reflexivity.
Defined.

(** ** The type of the thread id *)

(** The thread id of the event built from a response of the expected shape
    is never null: it is a string whenever the response has no trace id or
    has a string there, and in every other case it is the trace id itself,
    a value that is true. *)
Theorem thread_id_is_never_null (r : pyval) (session : option str) :
  chat_response r = true ->
  exists tid text input output total : pyval,
    extract r session = Ok (output_event tid text input output total) /\
    tid <> PNone /\
    (trace_id_of r = None \/ (exists t : str, trace_id_of r = Some (PStr t)) ->
     exists s : str, tid = PStr s) /\
    (tid = PStr (default [] session) \/
     trace_id_of r = Some tid /\ truthy tid = true).
Proof.
  intros Hshape. rewrite (extract_chat_response r session Hshape).
  do 5 eexists. split; [reflexivity |].
  unfold thread_id_of.
  destruct (trace_id_of r) as [t|]; [destruct (truthy t) eqn:Ht |].
  - split; [intros ->; discriminate Ht |].
    split; [| right; auto].
    intros [[=] | (t' & [= ->])]. exists t'. reflexivity.
  - split; [discriminate |]. split; [eauto | left; reflexivity].
  - split; [discriminate |]. split; [eauto | left; reflexivity].
Qed.

Lemma thread_id_is_never_null_witness :
  exists tid text input output total : pyval,
    extract (PDict [(lit "scram_j", PDict [(lit "trace_id", PNone)])])
      (Some (lit "s1")) =
      Ok (output_event tid text input output total) /\
    tid <> PNone.
Proof.
  destruct (thread_id_is_never_null
              (PDict [(lit "scram_j", PDict [(lit "trace_id", PNone)])])
              (Some (lit "s1")))
    as (tid & text & input & output & total & Hout & Hnull & _).
  - vm_compute. reflexivity.
  - exists tid, text, input, output, total. split; assumption.
Defined.

(** ** A URL without a type *)

Lemma has_type_from_colon (seen : bool) (u : str) :
  has_type_from seen u = true -> 58 ∈ u.
Proof.
  revert seen. induction u as [|c u IH]; [discriminate |].
  intros seen. cbn [has_type_from].
  destruct (N.eqb_spec c 58) as [-> | _]; [intros _; apply list_elem_of_here |].
  destruct (c =? 47); [discriminate |].
  intros H. apply list_elem_of_further, (IH true), H.
Qed.

Lemma lstrip_subset (c : char) (s : str) : c ∈ lstrip s -> c ∈ s.
Proof.
  induction s as [|x s IH]; [exact id |].
  cbn [lstrip]. destruct (isspace x); [| exact id].
  intros H. apply list_elem_of_further, IH, H.
Qed.

Lemma strip_subset (c : char) (s : str) : c ∈ strip s -> c ∈ s.
Proof.
  unfold strip, rstrip. intros H.
  apply list_elem_of_In, in_rev, list_elem_of_In, lstrip_subset in H.
  apply list_elem_of_In, in_rev, list_elem_of_In in H.
  apply lstrip_subset, H.
Qed.

Lemma removelast_subset (c : char) (s : str) : c ∈ removelast s -> c ∈ s.
Proof.
  induction s as [|x s IH]; [exact id |].
  cbn [removelast]. destruct s as [|y s]; [intros H; inversion H |].
  intros [-> | H]%elem_of_cons; [apply list_elem_of_here |].
  apply list_elem_of_further, IH, H.
Qed.

Lemma tail_subset (c : char) (s : str) : c ∈ tail s -> c ∈ s.
Proof. destruct s; [exact id | apply list_elem_of_further]. Qed.

Lemma skipn_subset (c : char) (n : nat) (s : str) : c ∈ skipn n s -> c ∈ s.
Proof.
  revert s. induction n as [|n IH]; [intros s; exact id |].
  intros [|x s]; [exact id |]. cbn [skipn].
  intros H. apply list_elem_of_further, IH, H.
Qed.

Lemma unwrap_subset (c : char) (u : str) : c ∈ unwrap u -> c ∈ u.
Proof.
  unfold unwrap. intros H. apply strip_subset.
  assert (Hin : c ∈ (if bool_decide (head (strip u) = Some 60)
                         && bool_decide (last (strip u) = Some 62)
                     then strip (removelast (tail (strip u)))
                     else strip u) -> c ∈ strip u).
  { destruct (_ && _); [| exact id].
    intros H'. apply tail_subset, removelast_subset, strip_subset, H'. }
  apply Hin. destruct (bool_decide _) in H; [| exact H].
  apply skipn_subset with 4%nat, strip_subset, H.
Qed.

Lemma rpartition_hash_subset (c : char) (u before after : str) :
  rpartition_hash u = Some (before, after) -> c ∈ before -> c ∈ u.
Proof.
  revert before. induction u as [|x u IH]; [discriminate |].
  intros before. cbn [rpartition_hash].
  destruct (rpartition_hash u) as [[b t]|].
  - intros [= <- <-] [-> | H]%elem_of_cons; [apply list_elem_of_here |].
    apply list_elem_of_further, (IH b eq_refl), H.
  - destruct (x =? 35); [| discriminate].
    intros [= <- <-] H. inversion H.
Qed.

(** The constructor of line 63 finds a type only in a URL with a colon. *)
Lemma url_ok_colon (u : str) : url_ok u = true -> 58 ∈ u.
Proof.
  unfold url_ok, has_type. intros H.
  apply has_type_from_colon in H. apply unwrap_subset.
  unfold splittag in H.
  destruct (rpartition_hash (unwrap u)) as [[b t]|] eqn:Hr; [| exact H].
  apply (rpartition_hash_subset _ _ _ _ Hr), H.
Qed.

(** A run with a prompt and an endpoint URL without a type ends at line 63,
    before the try: the constructor of the request raises ValueError with
    the text unknown url type and the representation of the URL, no request
    is opened and nothing is printed.  An endpoint without a colon has no
    type; the default URL has one. *)
Theorem url_without_type (a : Args) (w : World) :
  read_prompt a w <> [] ->
  (url_ok (url w) = false ->
   main a w =
     {| stdout := [];
        calls := [];
        status :=
          Uncaught (Exc ValueError
                      (lit "unknown url type: "
                       ++ repr w (Request_full_url (url w)))) |}) /\
  (forall u : str,
     environ w !! lit "SCRAM_J_ENDPOINT" = Some u -> 58 ∉ u ->
     url_ok (url w) = false) /\
  (environ w !! lit "SCRAM_J_ENDPOINT" = None -> url_ok (url w) = true).
Proof.
  intros Hp. split; [| split].
  - intros Hurl. apply (main_no_type a w Hp Hurl).
  - intros u Hu Hcolon. apply not_true_is_false. intros Hok.
    apply url_ok_colon in Hok. unfold url, ENDPOINT in Hok. rewrite Hu in Hok.
    cbn [default from_option id] in Hok.
    apply elem_of_app in Hok as [Hok | Hok]; [exact (Hcolon Hok) |].
    revert Hok. apply (bool_decide_unpack _). vm_compute. exact I.
  - intros Hu. unfold url, ENDPOINT. rewrite Hu. vm_compute. reflexivity.
Qed.

Lemma url_without_type_witness :
  main (args_of (Some (lit "hello")) None)
       (with_endpoint (world_of [] (Ok (PDict []))) (lit "localhost")) =
    {| stdout := [];
       calls := [];
       status :=
         Uncaught (Exc ValueError
                     (lit "unknown url type: 'localhost/v1/chat/completions'")) |}.
Proof.
  destruct (url_without_type
              (args_of (Some (lit "hello")) None)
              (with_endpoint (world_of [] (Ok (PDict []))) (lit "localhost"))
              ltac:(vm_compute; discriminate)) as (Hmain & _ & _).
  rewrite Hmain; vm_compute; reflexivity.
Defined.

(** ** A line standard output cannot encode *)

Lemma surrogate_verbatim (h : error_handler) (c : char) :
  refused h c = true -> verbatim c = true.
Proof.
  unfold refused, is_surrogate, verbatim. intros H.
  apply andb_prop in H as [H _]. apply andb_prop in H as [H _].
  apply N.leb_le in H.
  destruct (N.leb_spec 32 c); [| lia].
  destruct (N.eqb_spec c 34); [lia |].
  destruct (N.eqb_spec c 92); [lia | reflexivity].
Qed.

Lemma encode_str_keeps (h : error_handler) (c : char) (s : str) :
  c ∈ s -> refused h c = true -> c ∈ encode_str false s.
Proof.
  intros Hin Hc. unfold encode_str.
  apply elem_of_app. right. apply elem_of_app. left.
  apply list_elem_of_In, in_concat. exists [c]. split; [| left; reflexivity].
  apply in_map_iff. exists c. split.
  - apply escape_char_verbatim, (surrogate_verbatim h c Hc).
  - apply list_elem_of_In, Hin.
Qed.

Lemma encodable_elem (h : error_handler) (c : char) (s : str) :
  c ∈ s -> refused h c = true -> encodable h s = false.
Proof.
  intros Hin Hc. apply not_true_is_false. intros H.
  unfold encodable in H. rewrite forallb_forall in H.
  apply list_elem_of_In, H in Hin. rewrite Hc in Hin. discriminate.
Qed.

(** A response of the expected shape whose line standard output cannot
    encode: the request has gone out, print raises UnicodeEncodeError after
    the try, nothing is printed and no error line either.  That is the case
    whenever the text of the response holds a character the stream refuses,
    a lone surrogate, since the encoder with ensure_ascii off leaves it as
    it is. *)
Theorem unencodable_line_escapes (a : Args) (w : World) (r : pyval) :
  read_prompt a w <> [] ->
  url_ok (url w) = true ->
  urlopen w (request_of a w) = Ok r ->
  chat_response r = true ->
  (encodable (stdout_errors w) (success_line r (session_id a)) = false ->
   exists e : exc,
     exc_type e = UnicodeEncodeError /\
     main a w =
       {| stdout := []; calls := [request_of a w]; status := Uncaught e |}) /\
  (forall (s : str) (c : char),
     content_of r = Some (PStr s) -> c ∈ s ->
     refused (stdout_errors w) c = true ->
     encodable (stdout_errors w) (success_line r (session_id a)) = false).
Proof.
  intros Hp Hurl Hr Hshape. split.
  - intros Henc. rewrite (main_success a w r Hp Hurl Hr Hshape).
    apply emit_unencodable, Henc.
  - intros s c Hcontent Hin Hc.
    apply (encodable_elem _ c); [| exact Hc].
    pose proof (encode_str_keeps _ c s Hin Hc) as Hkeep.
    unfold success_line. rewrite Hcontent. cbn [default from_option id].
    unfold output_event.
    rewrite dumps_dict. cbn [map fst snd join_comma].
    rewrite !dumps_dict. cbn [map fst snd join_comma].
    change (dumps false (PStr s)) with (encode_str false s).
    rewrite !elem_of_app. tauto.
Qed.

Lemma unencodable_line_escapes_witness :
  main (args_of (Some (lit "hello")) None)
       (world_of [] (Ok (PDict
          [(lit "choices",
            PList [PDict [(lit "message",
                           PDict [(lit "content", PStr [104; 56448])])]])]))) =
    {| stdout := [];
       calls := [request_of (args_of (Some (lit "hello")) None)
                            (world_of [] (Ok (PDict [])))];
       status :=
         Uncaught (Exc UnicodeEncodeError
                     (lit "'utf-8' codec can't encode character '\udc80' in position 37: surrogates not allowed")) |}.
Proof.
  pose (r := PDict
          [(lit "choices",
            PList [PDict [(lit "message",
                           PDict [(lit "content", PStr [104; 56448])])]])]).
  destruct (unencodable_line_escapes
              (args_of (Some (lit "hello")) None) (world_of [] (Ok r)) r
              ltac:(vm_compute; discriminate) ltac:(vm_compute; reflexivity)
              eq_refl ltac:(vm_compute; reflexivity)) as [Hmain _].
  destruct (Hmain ltac:(vm_compute; reflexivity)) as (e & _ & He).
  pose proof (f_equal status He) as Hs. vm_compute in Hs.
  injection Hs as <-. etransitivity; [exact He | vm_compute; reflexivity].
Defined.

